(** * A shallow embedding of the news crawler of [main.py]

    The crawler polls a front page, keeps the rows it has not seen yet,
    and for each of them fetches the discussion page, collects the absolute
    links found there, and stores the news page and every linked page under
    one folder per news id.

    What is modelled, and how:
    - a Python value of type [str | None] is an [option string]; its truth
      value ([if not page]) is [truthy];
    - an exception is a value of [exn]; code that can raise returns a
      [result]; code that also touches the disk lives in [io], a state and
      error monad over the files written so far;
    - the outside world of one polling cycle is an [Env]: the answer of the
      network to a GET request and whether the disk accepts a write;
    - BeautifulSoup's parser is a parameter ([html_parser]); the queries the
      program makes on the parsed tree ([select], [find], [find_all], [get],
      indexing) are functions over a small tree of tags;
    - the order in which Python iterates over a [set] is a parameter
      ([set_iter]);
    - [asyncio.gather] runs its tasks one after the other, in the order they
      were created, and stops at the first exception. The event loop may
      interleave the tasks in any other way, and tasks still pending when
      [gather] raises are not cancelled by it: the files found with an
      exception are those of this one schedule, and no theorem states what
      the other tasks of a failed fan-out have written;
    - the files are keyed by the path as the program spells it; two
      spellings of one file ([data/./1] and [data/1]) are two keys. The
      theorems on several entries take ids without a slash, for which the
      spelling is the file;
    - a write succeeds or not as the world decides for its path; every
      failure of [save_html] (in [makedirs], [open] or [write]) is the one
      exception [OSError] and leaves the files as they were. Theorems on
      failed writes state no more than that the call raises;
    - [print] and [asyncio.sleep] change nothing that the program reads back
      and are left out. *)

From Stdlib Require Import String Ascii.
From stdpp Require Import base option list strings pretty gmap.


(** ** Python values, exceptions *)

Inductive exn : Set :=
| TypeError
| KeyError
| AttributeError
| OSError
| ClientConnectionError
| ClientResponseError
| UnicodeDecodeError.

Inductive result (A : Type) : Type :=
| Ok (a : A)
| Raise (e : exn).
Arguments Ok {A} a.
Arguments Raise {A} e.

#[global] Instance result_ret : MRet result := @Ok.
#[global] Instance result_bind : MBind result := λ A B f r,
  match r with
  | Ok a => f a
  | Raise e => Raise e
  end.

(** [bool(x)] for [x : str | None]: [None] and the empty string are false. *)
Definition truthy (x : option string) : bool :=
  match x with
  | Some s => negb (String.eqb s "")
  | None => false
  end.

(** [f"{x}"] for [x : str | None]. *)
Definition py_str (x : option string) : string :=
  match x with
  | Some s => s
  | None => "None"
  end.

Definition startswith (s p : string) : bool := String.prefix p s.

Fixpoint endswith_sep (s : string) : bool :=
  match s with
  | "" => false
  | String c "" => Ascii.eqb c "/"%char
  | String _ rest => endswith_sep rest
  end.

(** [os.path.join(a, b)] for two strings, as [posixpath] has it. *)
Definition posix_join (a b : string) : string :=
  if startswith b "/" then b
  else if String.eqb a "" || endswith_sep a then a +:+ b
  else a +:+ "/" +:+ b.

(** [os.path.join(a, b)] raises [TypeError] when a component is [None]. *)
Definition os_path_join (a : string) (b : option string) : result string :=
  match b with
  | Some b => Ok (posix_join a b)
  | None => Raise TypeError
  end.

(** ** The parsed document *)

(** A tag of the tree BeautifulSoup builds: its name, the words of its
    [class] attribute (bs4 keeps them as a list), its other attributes (a
    dict) and its children. *)
#[warnings="-register-all"]
Inductive node : Type :=
| Text (s : string)
| Elem (name : string) (classes : list string)
       (attrs : gmap string string) (children : list node).

Definition has_name (n : string) (t : node) : bool :=
  match t with
  | Elem m _ _ _ => String.eqb m n
  | Text _ => false
  end.

Definition has_class (c : string) (t : node) : bool :=
  match t with
  | Elem _ cs _ _ => bool_decide (c ∈ cs)
  | Text _ => false
  end.

(** [tag.get(key)] *)
Definition get_attr (key : string) (t : node) : option string :=
  match t with
  | Elem _ _ attrs _ => attrs !! key
  | Text _ => None
  end.

(** [tag[key]] *)
Definition getitem (key : string) (t : node) : result string :=
  match get_attr key t with
  | Some v => Ok v
  | None => Raise KeyError
  end.

(** [tag.descendants]: everything below the tag, in document order. *)
Fixpoint descendants (t : node) : list node :=
  match t with
  | Text _ => []
  | Elem _ _ _ children =>
      (fix go (l : list node) : list node :=
         match l with
         | [] => []
         | c :: l' => c :: descendants c ++ go l'
         end) children
  end.

Definition soup_descendants (soup : list node) : list node :=
  flat_map (λ c, c :: descendants c) soup.

(** [soup.select("tr.athing")] *)
Definition select_tr_athing (soup : list node) : list node :=
  List.filter (λ t, has_name "tr" t && has_class "athing" t)
              (soup_descendants soup).

(** [tag.find(name)] and [tag.find(name, class_=c)] *)
Definition find (name : string) (t : node) : option node :=
  List.find (has_name name) (descendants t).

Definition find_class (name c : string) (t : node) : option node :=
  List.find (λ d, has_name name d && has_class c d) (descendants t).

(** [soup.find_all('a', href=True)] *)
Definition find_all_a_href (soup : list node) : list node :=
  List.filter (λ t, has_name "a" t && bool_decide (is_Some (get_attr "href" t)))
              (soup_descendants soup).

(** ** Constants of the program *)

Definition BASE_URL : string := "https://news.ycombinator.com/".
Definition TOP_N : nat := 5.
Definition CRAWL_INTERVAL : nat := 300.
Definition NEWS_DIR : string := "data".

(** The header dict [get_comments_links] sends. *)
Definition headers : list (string * string) :=
  [ ("User-Agent",
     "Mozilla/5.0 (Windows NT 10.0; Win64; x64) "
     +:+ "AppleWebKit/537.36 (KHTML, like Gecko) "
     +:+ "Chrome/114.0.0.0 Safari/537.36");
    ("Accept",
     "text/html,application/xhtml+xml,application/xml;q=0.9,image/webp,*/*;q=0.8");
    ("Accept-Language", "en-US,en;q=0.9");
    ("Accept-Encoding", "gzip, deflate, br");
    ("Connection", "keep-alive");
    ("Upgrade-Insecure-Requests", "1");
    ("Sec-Fetch-Dest", "document");
    ("Sec-Fetch-Mode", "navigate");
    ("Sec-Fetch-Site", "none");
    ("Sec-Fetch-User", "?1");
    ("Cache-Control", "max-age=0") ].

(** ** The outside world *)

(** What [session.get(url, headers=headers)] meets: no answer at all, or
    an answer with a status and a body, [None] when the body does not
    decode. *)
Inductive response : Type :=
| NoResponse
| Response (status : nat) (body : option string).

Record Env : Type := {
  http_get : string → option (list (string * string)) → response;
  disk_ok : string → bool   (* makedirs, open and write all succeed; when
                               they do not, the failure is taken to be an
                               OSError whatever its kind *)
}.

(** The files on disk: path to content. *)
Abbreviation files := (gmap string string).

(** An entry of the front page: [(news_id, full_url)]. *)
Abbreviation entry := (option string * string)%type.

(** ** Code that reads and writes files and may raise *)

Definition io (A : Type) : Type := files → files * result A.

#[global] Instance io_ret : MRet io := λ A a fs, (fs, Ok a).
#[global] Instance io_bind : MBind io := λ A B f m fs,
  match m fs with
  | (fs', Ok a) => f a fs'
  | (fs', Raise e) => (fs', Raise e)
  end.

Definition lift {A} (r : result A) : io A := λ fs, (fs, r).

(** [for x in l: s = body(x, s)], for a body that may raise. *)
Fixpoint for_each {A S : Type} (body : A → S → result S) (l : list A) (s : S)
  : result S :=
  match l with
  | [] => Ok s
  | x :: l' => s' ← body x s; for_each body l' s'
  end.

(** [await asyncio.gather] over the task list, the tasks taken in creation
    order. The first exception ends the wait, as it does for the caller of
    [gather]; the tasks behind it are not run. This is one schedule among
    those of the event loop: it gives the outcome of the call (normal or
    not) and, when no task raises, the files; it does not give the files
    the other tasks leave when one of them raises. *)
Fixpoint gather (tasks : list (io unit)) : io unit :=
  match tasks with
  | [] => mret tt
  | t :: tasks' => _ ← t; gather tasks'
  end.

(** ** The program *)

Section Crawler.

(** [BeautifulSoup(markup, 'html.parser')] on a string. *)
Variable html_parser : string → list node.

(** The order in which [for ... in enumerate(s)] visits a set. *)
Variable set_iter : gset string → list string.

(** The constructor takes [len(markup)] of anything that is not a file:
    on [None] this is a [TypeError]. *)
Definition BeautifulSoup (markup : option string) : result (list node) :=
  match markup with
  | Some s => Ok (html_parser s)
  | None => Raise TypeError
  end.

(** The [try] block of [fetch]. *)
Definition session_get_text (env : Env) (url : string)
           (hdrs : option (list (string * string))) : result string :=
  match http_get env url hdrs with
  | NoResponse => Raise ClientConnectionError          (* session.get *)
  | Response status body =>
      if 400 <=? status then Raise ClientResponseError (* raise_for_status *)
      else match body with
           | Some text => Ok text                      (* resp.text() *)
           | None => Raise UnicodeDecodeError
           end
  end.

(** What [fetch] hands back: [except Exception: return None]. *)
Definition fetch_result (env : Env) (url : string)
           (hdrs : option (list (string * string))) : option string :=
  match session_get_text env url hdrs with
  | Ok text => Some text
  | Raise _ => None
  end.

Definition fetch (env : Env) (url : string)
           (hdrs : option (list (string * string))) : io (option string) :=
  mret (fetch_result env url hdrs).

(** The body of the loop of [parse_top_news]. *)
Definition parse_row (row : node) (links : list entry) : result (list entry) :=
  match find_class "span" "titleline" row with
  | Some title_span =>
      match find "a" title_span with
      | Some a =>
          full_url ← getitem "href" a;
          let news_id := get_attr "id" row in
          mret (links ++ [(news_id, full_url)])
      | None => mret links
      end
  | None => mret links
  end.

Definition parse_top_news (html : option string) : result (list entry) :=
  soup ← BeautifulSoup html;
  let rows := select_tr_athing soup in
  for_each parse_row (take TOP_N rows) [].

Definition save_html (env : Env) (folder_path filename : string)
           (html : option string) : io unit := λ fs,
  let path := posix_join folder_path filename in
  if disk_ok env path then
    match html with
    | Some text => (<[path := text]> fs, Ok tt)
    | None => (<[path := ""]> fs, Raise TypeError)   (* f.write(None) *)
    end
  else (fs, Raise OSError).

Definition download_and_save (env : Env) (url folder filename : string)
  : io unit :=
  html ← fetch env url None;
  if truthy html then save_html env folder filename html
  else mret tt.

(** [f"comment_{i + 1}.html"] *)
Definition comment_name (i : nat) : string :=
  "comment_" +:+ pretty (i + 1) +:+ ".html".

Definition download_news_and_comments (env : Env) (news_id : option string)
           (news_url : string) (news_links : gset string) : io unit :=
  folder ← lift (os_path_join NEWS_DIR news_id);
  news_html ← fetch env news_url None;
  if negb (truthy news_html) then mret tt
  else
    _ ← save_html env folder "news.html" news_html;
    if bool_decide (news_links = ∅) then mret tt
    else
      let tasks :=
        imap (λ i link, download_and_save env link folder (comment_name i))
             (set_iter news_links) in
      gather tasks.

(** The body of the loop of [get_comments_links]. *)
Definition add_link (link : node) (links : gset string) : result (gset string) :=
  match get_attr "href" link with
  | Some href =>
      if startswith href "http://" || startswith href "https://"
      then Ok (links ∪ {[href]})
      else Ok links
  | None => Raise AttributeError                   (* None.startswith *)
  end.

Definition thread_url (news_id : option string) : string :=
  BASE_URL +:+ "item?id=" +:+ py_str news_id.

Definition get_comments_links (env : Env) (news_id : option string)
  : io (gset string) :=
  let url := thread_url news_id in
  page ← fetch env url (Some headers);
  soup ← lift (BeautifulSoup page);
  lift (for_each add_link (find_all_a_href soup) ∅).

(** [[(nid, url) for nid, url in top_news if nid not in seen_news]] *)
Definition new_news (top_news : list entry) (seen_news : gset (option string))
  : list entry :=
  List.filter (λ e, bool_decide (e.1 ∉ seen_news)) top_news.

(** The loop [for nid, url in new_news] of [main]. *)
Fixpoint process (env : Env) (news : list entry)
         (seen_news : gset (option string)) : io (gset (option string)) :=
  match news with
  | [] => mret seen_news
  | (nid, url) :: news' =>
      news_links ← get_comments_links env nid;
      _ ← download_news_and_comments env nid url news_links;
      process env news' (seen_news ∪ {[nid]})
  end.

(** One turn of [while True] in [main], up to its [sleep]. *)
Definition cycle (env : Env) (seen_news : gset (option string))
  : io (gset (option string)) :=
  main_page_html ← fetch env BASE_URL None;
  if negb (truthy main_page_html) then mret seen_news
  else
    top_news ← lift (parse_top_news main_page_html);
    process env (new_news top_news seen_news) seen_news.

(** [n] turns of the loop, the [k]-th turn meeting the world [world k]. *)
Fixpoint main_loop (world : nat → Env) (n k : nat)
         (seen_news : gset (option string)) : io (gset (option string)) :=
  match n with
  | 0 => mret seen_news
  | S n' =>
      seen_news' ← cycle (world k) seen_news;
      main_loop world n' (S k) seen_news'
  end.

(** [main], stopped after [n] turns: it starts with [seen_news = set()]. *)
Definition main (world : nat → Env) (n : nat) : io (gset (option string)) :=
  main_loop world n 0 ∅.

End Crawler.

(** ** Where the files of an entry go *)

(** [data/<id>/news.html] *)
Definition news_path (id : string) : string :=
  posix_join (posix_join NEWS_DIR id) "news.html".

(** [data/<id>/comment_<i+1>.html], for the link at position [i] (from 0)
    of the enumeration. *)
Definition comment_path (id : string) (i : nat) : string :=
  posix_join (posix_join NEWS_DIR id) (comment_name i).

(** The targets of the hyperlinks of a document, in document order. *)
Definition hrefs (soup : list node) : list string :=
  omap (get_attr "href") (List.filter (has_name "a") (soup_descendants soup)).

(** [href.startswith("http://") or href.startswith("https://")] *)
Definition absolute (href : string) : bool :=
  startswith href "http://" || startswith href "https://".

(** ** Rows of the front page *)

(** The anchor [parse_top_news] looks at in a row: the first [a] below the
    first [span.titleline]. *)
Definition title_anchor (row : node) : option node :=
  title_span ← find_class "span" "titleline" row; find "a" title_span.

(** The target of that anchor: the title link of the row. *)
Definition title_link (row : node) : option string :=
  a ← title_anchor row; get_attr "href" a.

(** A row with a title link. *)
Definition valid_row (row : node) : bool :=
  bool_decide (is_Some (title_link row)).

(** A row with a non-empty id and a title link with a non-empty target. *)
Definition complete_row (row : node) : Prop :=
  ∃ id u, get_attr "id" row = Some id ∧ id ≠ "" ∧
          title_link row = Some u ∧ u ≠ "".

(** The entry made from a row with a title link. *)
Definition entry_of (row : node) : entry :=
  (get_attr "id" row, default "" (title_link row)).

(** The ids of a list of entries. *)
Definition ids (news : list entry) : gset (option string) :=
  list_to_set (news.*1).

(** A string without a slash. *)
Fixpoint no_slash (s : string) : bool :=
  match s with
  | "" => true
  | String c rest => negb (Ascii.eqb c "/"%char) && no_slash rest
  end.

(** ** A world in which only page fetches fail *)

(** The disk takes every write; the front page, when it comes, parses into
    entries that all have an id and whose thread page comes too. Nothing is
    asked of the front page fetch itself, of the fetch of a news page or of
    the fetch of a linked page. *)
Definition steady (html_parser : string → list node) (env : Env) : Prop :=
  (∀ path, disk_ok env path = true) ∧
  (∀ page, fetch_result env BASE_URL None = Some page → page ≠ "" →
     ∃ top_news,
       parse_top_news html_parser (Some page) = Ok top_news ∧
       ∀ e : entry, e ∈ top_news →
         is_Some (fst e) ∧
         fetch_result env (thread_url (fst e)) (Some headers) ≠ None).

(** ** Sample pages and worlds

    The pages below are given twice: as the text the network serves and as
    the tree [html.parser] builds from that text. [sample_parser] maps the
    one to the other. *)

Module Sample.

(** [<tr class='athing' id=ID><td><span class='titleline'>
     <a href=HREF>t</a></span></td></tr>] *)
Definition row_html (id href : string) : string :=
  "<tr class='athing' id='" +:+ id +:+ "'><td><span class='titleline'>"
  +:+ "<a href='" +:+ href +:+ "'>t</a></span></td></tr>".

Definition row (id href : string) : node :=
  Elem "tr" ["athing"] {[ "id" := id ]}
    [Elem "td" [] ∅
       [Elem "span" ["titleline"] ∅
          [Elem "a" [] {[ "href" := href ]} [Text "t"]]]].

(** A row without a title line. *)
Definition bare_row_html (id : string) : string :=
  "<tr class='athing' id='" +:+ id +:+ "'><td>gone</td></tr>".

Definition bare_row (id : string) : node :=
  Elem "tr" ["athing"] {[ "id" := id ]} [Elem "td" [] ∅ [Text "gone"]].

(** A row whose title anchor has no [href]. *)
Definition anchor_row_html (id : string) : string :=
  "<tr class='athing' id='" +:+ id +:+ "'><td><span class='titleline'>"
  +:+ "<a name='top'>t</a></span></td></tr>".

Definition anchor_row (id : string) : node :=
  Elem "tr" ["athing"] {[ "id" := id ]}
    [Elem "td" [] ∅
       [Elem "span" ["titleline"] ∅
          [Elem "a" [] {[ "name" := "top" ]} [Text "t"]]]].

Definition link_html (href : string) : string :=
  "<a href='" +:+ href +:+ "'>x</a>".

Definition link (href : string) : node :=
  Elem "a" [] {[ "href" := href ]} [Text "x"].

Definition u1 : string := "https://a.example/1".
Definition u2 : string := "https://b.example/2".
Definition u3 : string := "https://c.example/3".
Definition u4 : string := "https://d.example/4".
Definition u5 : string := "https://e.example/5".
Definition u6 : string := "https://f.example/6".
Definition l1 : string := "https://x.example/a".
Definition l2 : string := "http://y.example/b".
Definition l3 : string := "https://z.example/c".

(** Front page with the two entries [("1", u1)] and [("2", u2)]. *)
Definition front2_html : string := row_html "1" u1 +:+ row_html "2" u2.
Definition front2 : list node := [row "1" u1; row "2" u2].

(** Front page with five rows, all with a title link. *)
Definition front5_html : string :=
  row_html "1" u1 +:+ row_html "2" u2 +:+ row_html "3" u3
  +:+ row_html "4" u4 +:+ row_html "5" u5.
Definition front5 : list node :=
  [row "1" u1; row "2" u2; row "3" u3; row "4" u4; row "5" u5].

(** Front page with six rows: the first has no title line, the five
    behind it are complete. *)
Definition front6_html : string :=
  bare_row_html "0" +:+ front5_html.
Definition front6 : list node := bare_row "0" :: front5.

(** Front page whose only row has a title anchor without [href]. *)
Definition front_anchor_html : string := anchor_row_html "1".
Definition front_anchor : list node := [anchor_row "1"].

(** Front page on which two rows carry the id [7]. *)
Definition front_twice_html : string := row_html "7" u1 +:+ row_html "7" u2.
Definition front_twice : list node := [row "7" u1; row "7" u2].

(** Thread page with the links [l1], a relative one, [l2], [l1] again. *)
Definition thread_html : string :=
  link_html l1 +:+ link_html "item?id=1" +:+ link_html l2 +:+ link_html l1.
Definition thread : list node :=
  [link l1; link "item?id=1"; link l2; link l1].

(** Thread page with the links [l1], [l2], [l1], [l3]. *)
Definition thread4_html : string :=
  link_html l1 +:+ link_html l2 +:+ link_html l1 +:+ link_html l3.
Definition thread4 : list node := [link l1; link l2; link l1; link l3].

(** A thread page without any link. *)
Definition quiet_html : string := "<p>none</p>".
Definition quiet : list node := [Elem "p" [] ∅ [Text "none"]].

Definition sample_pages : list (string * list node) :=
  [ (front2_html, front2); (front5_html, front5); (front6_html, front6);
    (front_anchor_html, front_anchor); (front_twice_html, front_twice);
    (thread_html, thread); (thread4_html, thread4); (quiet_html, quiet) ].

Definition sample_parser (text : string) : list node :=
  default [] (snd <$> List.find (λ p, String.eqb p.1 text) sample_pages).

(** A network that serves the given pages with status 200, whatever the
    headers, and answers 404 elsewhere. *)
Definition serve (pages : list (string * string))
  : string → option (list (string * string)) → response :=
  λ url _,
    match List.find (λ p, String.eqb p.1 url) pages with
    | Some p => Response 200 (Some p.2)
    | None => Response 404 (Some "not found")
    end.

Definition item (id : string) : string := thread_url (Some id).

(** Everything is served and every write succeeds. *)
Definition env_fine : Env :=
  {| http_get := serve [ (BASE_URL, front2_html);
                         (item "1", thread_html); (item "2", quiet_html);
                         (u1, "one"); (u2, "two");
                         (l1, "first"); (l2, "second") ];
     disk_ok := λ _, true |}.

Definition site : list (string * string) :=
  [ (BASE_URL, front2_html);
    (item "1", thread_html); (item "2", quiet_html);
    (u1, "one"); (u2, "two");
    (l1, "first"); (l2, "second"); (l3, "third") ].

(** As [env_fine], but the thread page of entry 2 answers 404. *)
Definition env_thread_down : Env :=
  {| http_get := serve [ (BASE_URL, front2_html); (item "1", thread_html);
                         (u1, "one"); (u2, "two");
                         (l1, "first"); (l2, "second") ];
     disk_ok := λ _, true |}.

(** Everything is served, no write succeeds. *)
Definition env_disk_full : Env :=
  {| http_get := serve site; disk_ok := λ _, false |}.

(** Everything is served, the disk refuses one file: the first linked
    page of entry 1. *)
Definition env_comment_refused : Env :=
  {| http_get := serve site;
     disk_ok := λ path, negb (String.eqb path "data/1/comment_1.html") |}.

(** The front page and every thread page come, no other page does. *)
Definition env_pages_down : Env :=
  {| http_get := λ url hdrs,
       match hdrs with
       | Some _ => Response 200 (Some thread_html)
       | None => if String.eqb url BASE_URL
                 then Response 200 (Some front2_html)
                 else NoResponse
       end;
     disk_ok := λ _, true |}.

(** The front page has two rows with the id [7]. *)
Definition env_twice : Env :=
  {| http_get := serve [ (BASE_URL, front_twice_html);
                         (item "7", quiet_html);
                         (u1, "one"); (u2, "two") ];
     disk_ok := λ _, true |}.

(** The linked page [l2] answers 404, the others come. *)
Definition env_link_down : Env :=
  {| http_get := serve [ (u1, "one"); (l1, "first"); (l3, "third") ];
     disk_ok := λ _, true |}.

(** Every request is answered with status 200 and an empty body. *)
Definition env_empty_body : Env :=
  {| http_get := λ _ _, Response 200 (Some ""); disk_ok := λ _, true |}.

(** No request is answered. *)
Definition env_no_answer : Env :=
  {| http_get := λ _ _, NoResponse; disk_ok := λ _, true |}.

(** Only the thread page of entry 1 is served, with the links
    [l1], [l2], [l1], [l3]. *)
Definition env_thread4 : Env :=
  {| http_get := serve [ (item "1", thread4_html) ];
     disk_ok := λ _, true |}.

End Sample.

(** * Properties *)

#[local] Set Warnings "-clear-no-such-hyp".
#[local] Set Default Proof Using "Type".

(** ** Strings and paths *)

Lemma string_length_append (s t : string) :
  String.length (s +:+ t) = String.length s + String.length t.
Proof. induction s as [|c s IH]; simpl; [done | by rewrite IH]. Qed.

Lemma string_append_cancel_r (s1 s2 t : string) :
  s1 +:+ t = s2 +:+ t → s1 = s2.
Proof.
  revert s2. induction s1 as [|c s1 IH]; intros [|d s2] H; simpl in H.
  - done.
  - apply (f_equal String.length) in H.
    rewrite !string_length_append in H. simpl in H.
    rewrite ?string_length_append in H. lia.
  - apply (f_equal String.length) in H.
    rewrite !string_length_append in H. simpl in H.
    rewrite ?string_length_append in H. lia.
  - injection H as -> H. f_equal. by apply IH.
Qed.

Lemma comment_name_inj (i j : nat) : comment_name i = comment_name j → i = j.
Proof.
  unfold comment_name. intros H.
  apply (inj (String.app "comment_")) in H.
  apply string_append_cancel_r in H.
  apply (inj pretty) in H. lia.
Qed.

Lemma comment_name_relative (i : nat) : startswith (comment_name i) "/" = false.
Proof. reflexivity. Qed.

Lemma comment_name_not_news (i : nat) : comment_name i ≠ "news.html".
Proof. unfold comment_name. simpl. discriminate. Qed.

(** Two relative names joined to one folder give one path only when they
    are the same name. *)
Lemma posix_join_inj (a f1 f2 : string) :
  startswith f1 "/" = false → startswith f2 "/" = false →
  posix_join a f1 = posix_join a f2 → f1 = f2.
Proof.
  unfold posix_join. intros -> ->.
  destruct (String.eqb a "" || endswith_sep a); intros H.
  - by apply (inj (String.app a)) in H.
  - apply (inj (String.app a)) in H. by apply (inj (String.app "/")) in H.
Qed.

Lemma comment_path_inj (folder : string) (i j : nat) :
  posix_join folder (comment_name i) = posix_join folder (comment_name j) →
  i = j.
Proof.
  intros H. apply comment_name_inj.
  by apply posix_join_inj in H.
Qed.

Lemma comment_path_not_news (folder : string) (i : nat) :
  posix_join folder "news.html" ≠ posix_join folder (comment_name i).
Proof.
  intros H. apply posix_join_inj in H; [|done..].
  by apply (comment_name_not_news i).
Qed.

Lemma truthy_Some (x : option string) :
  truthy x = true → ∃ text, x = Some text ∧ text ≠ "".
Proof.
  destruct x as [text|]; simpl; [|done].
  destruct (String.eqb_spec text ""); [done|]. eauto.
Qed.

Lemma truthy_text (text : string) : text ≠ "" → truthy (Some text) = true.
Proof. simpl. by destruct (String.eqb_spec text ""). Qed.

(** ** Running the monad *)

Lemma io_bind_run {A B} (m : io A) (f : A → io B) (fs : files) :
  (m ≫= f) fs =
  match m fs with
  | (fs', Ok a) => f a fs'
  | (fs', Raise e) => (fs', Raise e)
  end.
Proof. reflexivity. Qed.

Lemma fetch_run (env : Env) url hdrs (fs : files) :
  fetch env url hdrs fs = (fs, Ok (fetch_result env url hdrs)).
Proof. reflexivity. Qed.

(** [fetch] hands back [None] exactly when its [try] block raises. *)
Lemma fetch_result_None (env : Env) url hdrs :
  fetch_result env url hdrs = None ↔
  ∃ e, session_get_text env url hdrs = Raise e.
Proof.
  unfold fetch_result. destruct (session_get_text env url hdrs); split.
  - done.
  - by intros [? ?].
  - eauto.
  - done.
Qed.

(** ** Saving one linked page *)

Lemma download_and_save_run (env : Env) url folder filename (fs : files) :
  download_and_save env url folder filename fs =
  if truthy (fetch_result env url None)
  then save_html env folder filename (fetch_result env url None) fs
  else (fs, Ok tt).
Proof.
  unfold download_and_save. rewrite io_bind_run, fetch_run.
  by destruct (truthy _).
Qed.

Lemma save_html_ok (env : Env) folder filename text (fs : files) :
  disk_ok env (posix_join folder filename) = true →
  save_html env folder filename (Some text) fs =
  (<[posix_join folder filename := text]> fs, Ok tt).
Proof. unfold save_html. by intros ->. Qed.

Lemma save_html_fail (env : Env) folder filename html (fs : files) :
  disk_ok env (posix_join folder filename) = false →
  save_html env folder filename html fs = (fs, Raise OSError).
Proof. unfold save_html. by intros ->. Qed.

(** A linked page either is saved, or is dropped, or its write fails. *)
Lemma download_and_save_cases (env : Env) url folder filename (fs : files) :
  let path := posix_join folder filename in
  (∃ text, fetch_result env url None = Some text ∧ text ≠ "" ∧
           disk_ok env path = true ∧
           download_and_save env url folder filename fs =
           (<[path := text]> fs, Ok tt))
  ∨ (truthy (fetch_result env url None) = false ∧
     download_and_save env url folder filename fs = (fs, Ok tt))
  ∨ (truthy (fetch_result env url None) = true ∧ disk_ok env path = false ∧
     download_and_save env url folder filename fs = (fs, Raise OSError)).
Proof.
  intros path. rewrite download_and_save_run.
  destruct (truthy (fetch_result env url None)) eqn:Ht; [|by right; left].
  destruct (truthy_Some _ Ht) as (text & Hf & Hne).
  destruct (disk_ok env path) eqn:Hd.
  - left. exists text. rewrite Hf. by rewrite save_html_ok.
  - right; right. by rewrite save_html_fail.
Qed.

(** ** The fan-out: [gather] over the linked pages *)

Section Fanout.

Variable env : Env.
Variable folder : string.

(** The task list of [download_news_and_comments], for any numbering of
    the file names. *)
Let tasks (names : nat → string) (l : list string) : list (io unit) :=
  imap (λ i link, download_and_save env link folder (names i)) l.

(** [gather] touches no path outside the files of its tasks, however it
    ends. *)
Lemma gather_frame names l (fs fs' : files) r p :
  gather (tasks names l) fs = (fs', r) →
  (∀ i, p ≠ posix_join folder (names i)) →
  fs' !! p = fs !! p.
Proof.
  revert names fs. induction l as [|x l IH]; intros names fs Hrun Hp.
  - by injection Hrun as <- _.
  - unfold tasks in Hrun. rewrite imap_cons in Hrun. simpl in Hrun.
    rewrite io_bind_run in Hrun.
    destruct (download_and_save_cases env x folder (names 0) fs)
      as [(text & _ & _ & _ & Hx) | [[_ Hx] | (_ & _ & Hx)]];
      rewrite Hx in Hrun.
    + apply IH in Hrun; [|intros i; apply (Hp (S i))].
      rewrite Hrun. apply lookup_insert_ne. by apply not_eq_sym.
    + apply IH in Hrun; [done|]. intros i; apply (Hp (S i)).
    + by injection Hrun as <- _.
  Qed.

(** When the disk takes every write, [gather] ends normally: a link whose
    fetch gave a text has that text in its file, a link whose fetch gave
    nothing leaves its file as it was. *)
Lemma gather_all_written names l (fs : files) :
  (∀ i j, posix_join folder (names i) = posix_join folder (names j) → i = j) →
  (∀ i, disk_ok env (posix_join folder (names i)) = true) →
  ∃ fs',
    gather (tasks names l) fs = (fs', Ok tt) ∧
    (∀ i link, l !! i = Some link →
       fs' !! posix_join folder (names i) =
       if truthy (fetch_result env link None)
       then fetch_result env link None
       else fs !! posix_join folder (names i)) ∧
    (∀ p, (∀ i, i < length l → p ≠ posix_join folder (names i)) →
          fs' !! p = fs !! p).
Proof.
  revert names fs. induction l as [|x l IH]; intros names fs Hinj Hdisk.
  - exists fs. split; [done|]. split; [|done]. by intros i link.
  - unfold tasks. rewrite imap_cons. simpl. rewrite io_bind_run.
    assert (Hinj' : ∀ i j, posix_join folder ((names ∘ S) i) =
                           posix_join folder ((names ∘ S) j) → i = j).
    { intros i j H. apply Hinj in H. lia. }
    assert (Hdisk' : ∀ i, disk_ok env (posix_join folder ((names ∘ S) i)) = true).
    { intros i. apply Hdisk. }
    destruct (download_and_save_cases env x folder (names 0) fs)
      as [(text & Hf & Hne & _ & Hx) | [[Hf Hx] | (_ & Hd & _)]].
    + rewrite Hx.
      destruct (IH (names ∘ S) (<[posix_join folder (names 0) := text]> fs)
                  Hinj' Hdisk') as (fs' & Hrun & Hin & Hout).
      exists fs'. split; [exact Hrun|]. split.
      * intros [|i] link Hl.
        -- injection Hl as <-. rewrite Hf, (truthy_text _ Hne).
           rewrite Hout; [apply lookup_insert_eq|].
           intros i _ H. by apply Hinj in H.
        -- pose proof (Hin i link Hl) as Hi. simpl in Hi. rewrite Hi.
           destruct (truthy _); [done|].
           apply lookup_insert_ne. intros H. by apply Hinj in H.
      * intros p Hp. rewrite Hout.
        -- apply lookup_insert_ne, not_eq_sym, (Hp 0). simpl. lia.
        -- intros i Hi. apply (Hp (S i)). simpl. lia.
    + rewrite Hx.
      destruct (IH (names ∘ S) fs Hinj' Hdisk') as (fs' & Hrun & Hin & Hout).
      exists fs'. split; [exact Hrun|]. split.
      * intros [|i] link Hl.
        -- injection Hl as <-. rewrite Hf. apply Hout.
           intros i _ H. by apply Hinj in H.
        -- apply (Hin i link Hl).
      * intros p Hp. apply Hout. intros i Hi. apply (Hp (S i)). simpl. lia.
    + by rewrite Hdisk in Hd.
Qed.

(** One write that the disk refuses is enough for [gather] to raise. *)
Lemma gather_raises names l (fs : files) i link :
  l !! i = Some link →
  truthy (fetch_result env link None) = true →
  disk_ok env (posix_join folder (names i)) = false →
  ∃ fs', gather (tasks names l) fs = (fs', Raise OSError).
Proof.
  revert names fs i. induction l as [|x l IH]; intros names fs i Hl Ht Hd.
  - done.
  - unfold tasks. rewrite imap_cons. simpl. rewrite io_bind_run.
    destruct (download_and_save_cases env x folder (names 0) fs)
      as [(text & _ & _ & Hok & Hx) | [[Hf Hx] | (_ & _ & Hx)]];
      rewrite Hx; [| |by eauto].
    + destruct i as [|i]; [by rewrite Hd in Hok|].
      apply (IH (names ∘ S) _ i); done.
    + destruct i as [|i]; [injection Hl as <-; by rewrite Ht in Hf|].
      apply (IH (names ∘ S) _ i); done.
Qed.

End Fanout.

(** ** One entry: [download_news_and_comments] *)

Section Download.

Variable set_iter : gset string → list string.
Hypothesis set_iter_perm : ∀ s : gset string, set_iter s ≡ₚ elements s.

Lemma set_iter_empty : set_iter ∅ = [].
Proof using set_iter_perm.
  apply Permutation_nil. symmetry.
  rewrite (set_iter_perm ∅). by rewrite elements_empty.
Qed.

Lemma download_run (env : Env) id url links (fs : files) :
  download_news_and_comments set_iter env (Some id) url links fs =
  if truthy (fetch_result env url None) then
    match save_html env (posix_join NEWS_DIR id) "news.html"
                    (fetch_result env url None) fs with
    | (fs1, Ok _) =>
        gather (imap (λ i link, download_and_save env link
                                  (posix_join NEWS_DIR id) (comment_name i))
                     (set_iter links)) fs1
    | (fs1, Raise e) => (fs1, Raise e)
    end
  else (fs, Ok tt).
Proof using set_iter_perm.
  unfold download_news_and_comments. simpl.
  rewrite io_bind_run. unfold lift at 1. rewrite io_bind_run, fetch_run.
  destruct (truthy (fetch_result env url None)); [|done]. simpl.
  rewrite io_bind_run.
  destruct (save_html _ _ _ _ fs) as [fs1 [[]|e]]; [|done].
  case_bool_decide as Hl; [|done].
  subst links. by rewrite set_iter_empty.
Qed.

(** The primary fetch gave nothing: the entry is left, nothing is saved. *)
Lemma download_primary_failed (env : Env) id url links (fs : files) :
  truthy (fetch_result env url None) = false →
  download_news_and_comments set_iter env (Some id) url links fs = (fs, Ok tt).
Proof using set_iter_perm. intros H. by rewrite download_run, H. Qed.

(** The primary fetch gave a text and the disk takes it: [news.html] holds
    it when the entry is done, however the fan-out ends. *)
Lemma download_primary_saved (env : Env) id url links (fs : files) html :
  fetch_result env url None = Some html → html ≠ "" →
  disk_ok env (news_path id) = true →
  ∃ fs' r,
    download_news_and_comments set_iter env (Some id) url links fs = (fs', r) ∧
    fs' !! news_path id = Some html.
Proof using set_iter_perm.
  intros Hf Hne Hd. rewrite download_run, Hf, (truthy_text _ Hne).
  rewrite save_html_ok by exact Hd.
  destruct (gather _ _) as [fs' r] eqn:Hg.
  exists fs', r. split; [done|].
  apply gather_frame with (p := news_path id) in Hg.
  - rewrite Hg. apply lookup_insert_eq.
  - intros i. apply comment_path_not_news.
Qed.

End Download.

(** ** The front page: [parse_top_news] *)

Lemma parse_row_link (row : node) (links : list entry) u :
  title_link row = Some u →
  parse_row row links = Ok (links ++ [(get_attr "id" row, u)]).
Proof.
  unfold title_link, title_anchor, parse_row.
  destruct (find_class "span" "titleline" row) as [span|]; simpl; [|done].
  destruct (find "a" span) as [a|]; simpl; [|done].
  unfold getitem. by intros ->.
Qed.

Lemma parse_row_no_anchor (row : node) (links : list entry) :
  title_anchor row = None → parse_row row links = Ok links.
Proof.
  unfold title_anchor, parse_row.
  destruct (find_class "span" "titleline" row) as [span|]; simpl; [|done].
  by intros ->.
Qed.

Lemma parse_row_no_href (row : node) (links : list entry) a :
  title_anchor row = Some a → get_attr "href" a = None →
  parse_row row links = Raise KeyError.
Proof.
  unfold title_anchor, parse_row.
  destruct (find_class "span" "titleline" row) as [span|]; simpl; [|done].
  intros ->. unfold getitem. by intros ->.
Qed.

(** A row adds one entry, or none, or raises [KeyError]. *)
Lemma parse_row_cases (row : node) (links : list entry) :
  parse_row row links = Ok (links ++ [entry_of row]) ∧ valid_row row = true
  ∨ parse_row row links = Ok links ∧ valid_row row = false
  ∨ parse_row row links = Raise KeyError ∧ valid_row row = false.
Proof.
  unfold valid_row, entry_of.
  destruct (title_anchor row) as [a|] eqn:Ha.
  - destruct (get_attr "href" a) as [u|] eqn:Hu.
    + left. assert (title_link row = Some u) as Hl.
      { unfold title_link. by rewrite Ha. }
      rewrite Hl, (parse_row_link _ _ _ Hl). split; [done|].
      apply bool_decide_eq_true. eauto.
    + right; right. split; [by eapply parse_row_no_href|].
      apply bool_decide_eq_false. unfold title_link. rewrite Ha. simpl.
      rewrite Hu. by intros [? ?].
  - right; left. split; [by apply parse_row_no_anchor|].
    apply bool_decide_eq_false. unfold title_link. rewrite Ha.
    by intros [? ?].
Qed.

(** Rows that all have a title link give one entry each, in their order. *)
Lemma for_each_parse_row_valid (rows : list node) (links : list entry) :
  Forall (λ row, valid_row row = true) rows →
  for_each parse_row rows links = Ok (links ++ map entry_of rows).
Proof.
  revert links. induction rows as [|row rows IH]; intros links Hv; simpl.
  - by rewrite app_nil_r.
  - apply Forall_cons in Hv as [Hrow Hrows].
    destruct (parse_row_cases row links) as [[Hr _]|[[_ H]|[_ H]]];
      [rewrite Hr|congruence..].
    simpl. rewrite IH by done. by rewrite <- app_assoc.
Qed.

(** The loop never yields more entries than it was given rows. *)
Lemma for_each_parse_row_length (rows : list node) (links l : list entry) :
  for_each parse_row rows links = Ok l →
  length l ≤ length links + length rows.
Proof.
  revert links. induction rows as [|row rows IH]; intros links H; simpl in H.
  - injection H as <-. lia.
  - destruct (parse_row_cases row links) as [[Hr _]|[[Hr _]|[Hr _]]];
      rewrite Hr in H; simpl in H; [| |done].
    + apply IH in H. rewrite length_app in H. simpl in *. lia.
    + apply IH in H. simpl. lia.
Qed.

(** A row whose title anchor has no [href] makes the loop raise. *)
Lemma for_each_parse_row_raises (rows : list node) (links : list entry) row a :
  row ∈ rows → title_anchor row = Some a → get_attr "href" a = None →
  for_each parse_row rows links = Raise KeyError.
Proof.
  intros Hin Ha Hu. revert links.
  induction rows as [|r rows IH]; intros links; [by apply elem_of_nil in Hin|].
  simpl. destruct (parse_row_cases r links) as [[Hr Hv]|[[Hr _]|[Hr _]]];
    rewrite Hr; simpl; [| |done].
  - apply elem_of_cons in Hin as [->|Hin]; [|by apply IH].
    apply bool_decide_eq_true in Hv as [u Hv].
    unfold title_link in Hv. rewrite Ha in Hv. simpl in Hv. congruence.
  - apply elem_of_cons in Hin as [->|Hin]; [|by apply IH].
    rewrite (parse_row_no_href _ _ _ Ha Hu) in Hr. done.
Qed.

(** ** The thread page: the loop of [get_comments_links] *)

Lemma add_link_run (a : node) (links : gset string) href :
  get_attr "href" a = Some href →
  add_link a links = Ok (if absolute href then links ∪ {[href]} else links).
Proof.
  unfold add_link, absolute. intros ->.
  by destruct (startswith href "http://" || startswith href "https://").
Qed.

Lemma for_each_add_link (l : list node) (links : gset string) :
  Forall (λ a, is_Some (get_attr "href" a)) l →
  for_each add_link l links =
  Ok (links ∪ list_to_set (List.filter absolute (omap (get_attr "href") l))).
Proof.
  revert links. induction l as [|a l IH]; intros links Hl.
  - simpl. f_equal. set_solver.
  - apply Forall_cons in Hl as [[href Ha] Hl].
    cbn [for_each omap list_omap]. rewrite (add_link_run _ _ _ Ha), Ha.
    cbn [mbind result_bind List.filter].
    rewrite IH by done.
    destruct (absolute href); f_equal; set_solver.
Qed.

Lemma find_all_a_href_has_href (soup : list node) :
  Forall (λ a, is_Some (get_attr "href" a)) (find_all_a_href soup).
Proof.
  apply Forall_forall. intros a Ha. apply list_elem_of_In in Ha.
  apply filter_In in Ha as [_ Ha].
  apply andb_true_iff in Ha as [_ Ha]. by apply bool_decide_eq_true in Ha.
Qed.

Lemma omap_filter_is_Some {A B} (f : A → option B) (p : A → bool) (l : list A) :
  omap f (List.filter (λ t, p t && bool_decide (is_Some (f t))) l) =
  omap f (List.filter p l).
Proof.
  induction l as [|t l IH]; [done|]. cbn [List.filter].
  destruct (p t); cbn [andb]; [|done].
  destruct (f t) as [b|] eqn:Hb.
  - rewrite bool_decide_eq_true_2 by eauto.
    cbn [omap list_omap]. by rewrite Hb, IH.
  - rewrite bool_decide_eq_false_2 by (by intros [? ?]).
    cbn [omap list_omap]. by rewrite Hb.
Qed.

Lemma find_all_a_href_hrefs (soup : list node) :
  omap (get_attr "href") (find_all_a_href soup) = hrefs soup.
Proof. apply omap_filter_is_Some. Qed.

(** ** [get_comments_links] *)

Section Links.

Variable html_parser : string → list node.

(** The thread page came: the links are the absolute targets on it. *)
Lemma get_comments_links_page (env : Env) nid (fs : files) page :
  fetch_result env (thread_url nid) (Some headers) = Some page →
  get_comments_links html_parser env nid fs =
  (fs, Ok (list_to_set (List.filter absolute (hrefs (html_parser page))))).
Proof.
  intros Hf. unfold get_comments_links.
  rewrite io_bind_run, fetch_run, Hf. simpl.
  unfold lift. rewrite io_bind_run.
  rewrite for_each_add_link by apply find_all_a_href_has_href.
  rewrite find_all_a_href_hrefs. f_equal. f_equal. set_solver.
Qed.

(** The thread page did not come: [BeautifulSoup(None, ...)] raises. *)
Lemma get_comments_links_no_page (env : Env) nid (fs : files) :
  fetch_result env (thread_url nid) (Some headers) = None →
  get_comments_links html_parser env nid fs = (fs, Raise TypeError).
Proof.
  intros Hf. unfold get_comments_links.
  by rewrite io_bind_run, fetch_run, Hf.
Qed.

(** [get_comments_links] writes nothing. *)
Lemma get_comments_links_files (env : Env) nid (fs fs' : files) r :
  get_comments_links html_parser env nid fs = (fs', r) → fs' = fs.
Proof.
  destruct (fetch_result env (thread_url nid) (Some headers)) as [page|] eqn:Hf.
  - rewrite (get_comments_links_page _ _ _ _ Hf). by intros [= <- _].
  - rewrite (get_comments_links_no_page _ _ _ Hf). by intros [= <- _].
Qed.

End Links.

(** ** The loop over the new entries, the cycle, the crawl loop *)

Section Loop.

Variable html_parser : string → list node.
Variable set_iter : gset string → list string.

Lemma process_cons (env : Env) nid url news seen (fs : files) :
  process html_parser set_iter env ((nid, url) :: news) seen fs =
  match get_comments_links html_parser env nid fs with
  | (fs1, Ok news_links) =>
      match download_news_and_comments set_iter env nid url news_links fs1 with
      | (fs2, Ok _) => process html_parser set_iter env news (seen ∪ {[nid]}) fs2
      | (fs2, Raise e) => (fs2, Raise e)
      end
  | (fs1, Raise e) => (fs1, Raise e)
  end.
Proof.
  simpl. rewrite io_bind_run.
  destruct (get_comments_links _ _ _ _) as [fs1 [news_links|e]]; [|done].
  rewrite io_bind_run. by destruct (download_news_and_comments _ _ _ _ _ _) as [? [[]|?]].
Qed.

Lemma process_app (env : Env) news1 news2 seen (fs : files) :
  process html_parser set_iter env (news1 ++ news2) seen fs =
  match process html_parser set_iter env news1 seen fs with
  | (fs1, Ok seen1) => process html_parser set_iter env news2 seen1 fs1
  | (fs1, Raise e) => (fs1, Raise e)
  end.
Proof.
  revert seen fs. induction news1 as [|[nid url] news1 IH]; intros seen fs.
  - done.
  - rewrite <- app_comm_cons, !process_cons.
    destruct (get_comments_links _ _ _ _) as [fs1 [news_links|e]]; [|done].
    destruct (download_news_and_comments _ _ _ _ _ _) as [fs2 [[]|e]]; [|done].
    apply IH.
Qed.

(** When the loop over the new entries ends normally, every one of them
    has been added to the seen set, and nothing else. *)
Lemma process_seen (env : Env) news seen (fs fs' : files) seen' :
  process html_parser set_iter env news seen fs = (fs', Ok seen') → seen' = seen ∪ ids news.
Proof.
  revert seen fs. induction news as [|[nid url] news IH]; intros seen fs H.
  - injection H as _ <-. unfold ids. set_solver.
  - rewrite process_cons in H.
    destruct (get_comments_links _ _ _ _) as [fs1 [news_links|e]]; [|done].
    destruct (download_news_and_comments _ _ _ _ _ _) as [fs2 [[]|e]]; [|done].
    apply IH in H. rewrite H. unfold ids. set_solver.
Qed.

Lemma cycle_run (env : Env) seen (fs : files) :
  cycle html_parser set_iter env seen fs =
  if truthy (fetch_result env BASE_URL None) then
    match parse_top_news html_parser (fetch_result env BASE_URL None) with
    | Ok top_news => process html_parser set_iter env (new_news top_news seen) seen fs
    | Raise e => (fs, Raise e)
    end
  else (fs, Ok seen).
Proof.
  unfold cycle. rewrite io_bind_run, fetch_run.
  destruct (truthy _); [|done]. simpl. unfold lift. rewrite io_bind_run.
  by destruct (parse_top_news _ _).
Qed.

Lemma main_loop_S (world : nat → Env) n k seen (fs : files) :
  main_loop html_parser set_iter world (S n) k seen fs =
  match cycle html_parser set_iter (world k) seen fs with
  | (fs', Ok seen') => main_loop html_parser set_iter world n (S k) seen' fs'
  | (fs', Raise e) => (fs', Raise e)
  end.
Proof. reflexivity. Qed.

Lemma main_loop_add (world : nat → Env) m n k seen (fs : files) :
  main_loop html_parser set_iter world (m + n) k seen fs =
  match main_loop html_parser set_iter world m k seen fs with
  | (fs1, Ok seen1) => main_loop html_parser set_iter world n (k + m) seen1 fs1
  | (fs1, Raise e) => (fs1, Raise e)
  end.
Proof.
  revert k seen fs. induction m as [|m IH]; intros k seen fs.
  - simpl. by rewrite Nat.add_0_r.
  - change (S m + n) with (S (m + n)). rewrite !main_loop_S.
    destruct (cycle _ _ _ _ _) as [fs1 [seen1|e]]; [|done].
    rewrite IH. by replace (S k + m) with (k + S m) by lia.
Qed.

(** Nothing ever leaves the seen set. *)
Lemma cycle_seen_grows (env : Env) seen (fs fs' : files) seen' :
  cycle html_parser set_iter env seen fs = (fs', Ok seen') → seen ⊆ seen'.
Proof.
  rewrite cycle_run. destruct (truthy _).
  - destruct (parse_top_news _ _) as [top_news|]; [|done].
    intros H%process_seen. set_solver.
  - by intros [= _ <-].
Qed.

Lemma main_loop_seen_grows (world : nat → Env) n k seen (fs fs' : files) seen' :
  main_loop html_parser set_iter world n k seen fs = (fs', Ok seen') → seen ⊆ seen'.
Proof.
  revert k seen fs. induction n as [|n IH]; intros k seen fs H.
  - by injection H as _ <-.
  - rewrite main_loop_S in H.
    destruct (cycle _ _ _) as [fs1 [seen1|e]] eqn:Hc; [|done].
    apply cycle_seen_grows in Hc. apply IH in H. set_solver.
Qed.

(** An id of the seen set is never among the new entries. *)
Lemma new_news_unseen (top_news : list entry) seen (e : entry) :
  e ∈ new_news top_news seen → (fst e ∉ seen) ∧ e ∈ top_news.
Proof.
  unfold new_news. intros H. apply list_elem_of_In, filter_In in H.
  destruct H as [H1 H2]. apply bool_decide_eq_true in H2.
  split; [done|]. by apply list_elem_of_In.
Qed.

End Loop.

(** ** Runs in which the disk takes every write *)

Section Steady.

Variable html_parser : string → list node.
Variable set_iter : gset string → list string.
Hypothesis set_iter_perm : ∀ s : gset string, set_iter s ≡ₚ elements s.

(** The whole effect of [download_news_and_comments] on the files when
    the news page came and no write under the folder of the entry fails. *)
Lemma download_fanout (env : Env) id url links (fs : files) html :
  fetch_result env url None = Some html → html ≠ "" →
  (∀ name, disk_ok env (posix_join (posix_join NEWS_DIR id) name) = true) →
  ∃ fs',
    download_news_and_comments set_iter env (Some id) url links fs = (fs', Ok tt) ∧
    fs' !! news_path id = Some html ∧
    (∀ i link, set_iter links !! i = Some link →
       fs' !! comment_path id i =
       if truthy (fetch_result env link None)
       then fetch_result env link None
       else fs !! comment_path id i) ∧
    (∀ p, p ≠ news_path id →
          (∀ i, i < length (set_iter links) → p ≠ comment_path id i) →
          fs' !! p = fs !! p).
Proof using set_iter_perm.
  intros Hf Hne Hd.
  rewrite (download_run _ set_iter_perm), Hf, (truthy_text _ Hne).
  rewrite save_html_ok by apply Hd.
  destruct (gather_all_written env (posix_join NEWS_DIR id) comment_name
              (set_iter links)
              (<[posix_join (posix_join NEWS_DIR id) "news.html" := html]> fs))
    as (fs' & Hrun & Hin & Hout).
  { apply comment_path_inj. }
  { intros i. apply Hd. }
  exists fs'. split; [exact Hrun|]. split; [|split].
  - unfold news_path. rewrite Hout; [apply lookup_insert_eq|].
    intros i _. apply comment_path_not_news.
  - intros i link Hl. unfold comment_path. rewrite (Hin i link Hl).
    destruct (truthy _); [done|].
    apply lookup_insert_ne, comment_path_not_news.
  - intros p Hp1 Hp2. rewrite Hout by exact Hp2.
    apply lookup_insert_ne. by apply not_eq_sym.
Qed.

Lemma download_returns (env : Env) id url links (fs : files) :
  (∀ path, disk_ok env path = true) →
  ∃ fs', download_news_and_comments set_iter env (Some id) url links fs
         = (fs', Ok tt).
Proof using set_iter_perm.
  intros Hd. destruct (truthy (fetch_result env url None)) eqn:Ht.
  - destruct (truthy_Some _ Ht) as (html & Hf & Hne).
    destruct (download_fanout env id url links fs html Hf Hne)
      as (fs' & H & _); [by intros; apply Hd|]. eauto.
  - exists fs. by apply download_primary_failed.
Qed.

Lemma process_returns (env : Env) news seen (fs : files) :
  (∀ path, disk_ok env path = true) →
  (∀ e : entry, e ∈ news →
     is_Some (fst e) ∧
     fetch_result env (thread_url (fst e)) (Some headers) ≠ None) →
  ∃ fs', process html_parser set_iter env news seen fs
         = (fs', Ok (seen ∪ ids news)).
Proof using set_iter_perm.
  intros Hd. revert seen fs.
  induction news as [|[nid url] news IH]; intros seen fs Hn.
  - exists fs. simpl. unfold mret, io_ret. do 2 f_equal. unfold ids. set_solver.
  - destruct (Hn (nid, url)) as [[id Hid] Hth]; [by left|].
    simpl in Hid, Hth. subst nid.
    destruct (fetch_result env (thread_url (Some id)) (Some headers))
      as [page|] eqn:Hf; [|done].
    rewrite process_cons, (get_comments_links_page _ _ _ _ _ Hf).
    destruct (download_returns env id url
                (list_to_set (List.filter absolute (hrefs (html_parser page))))
                fs Hd) as [fs1 ->].
    destruct (IH (seen ∪ {[Some id]}) fs1) as [fs' ->].
    { intros e He. apply Hn. by right. }
    exists fs'. do 2 f_equal. unfold ids. set_solver.
Qed.

Lemma cycle_returns (env : Env) seen (fs : files) :
  steady html_parser env →
  ∃ fs' seen', cycle html_parser set_iter env seen fs = (fs', Ok seen').
Proof using set_iter_perm.
  intros [Hd Hp]. rewrite cycle_run.
  destruct (truthy _) eqn:Ht; [|by eauto].
  destruct (truthy_Some _ Ht) as (page & Hf & Hne). rewrite Hf.
  destruct (Hp page Hf Hne) as (top_news & -> & Htop).
  destruct (process_returns env (new_news top_news seen) seen fs Hd)
    as [fs' ->]; [|by eauto].
  intros e He. apply new_news_unseen in He as [_ He]. by apply Htop.
Qed.

Lemma main_loop_returns (world : nat → Env) n k seen (fs : files) :
  (∀ j, steady html_parser (world j)) →
  ∃ fs' seen',
    main_loop html_parser set_iter world n k seen fs = (fs', Ok seen').
Proof using set_iter_perm.
  intros Hw. revert k seen fs. induction n as [|n IH]; intros k seen fs.
  - by exists fs, seen.
  - rewrite main_loop_S.
    destruct (cycle_returns (world k) seen fs (Hw k)) as (fs1 & seen1 & ->).
    apply IH.
Qed.

End Steady.

(** * The claims *)

Section Claims.

Variable html_parser : string → list node.
Variable set_iter : gset string → list string.
Hypothesis set_iter_perm : ∀ s : gset string, set_iter s ≡ₚ elements s.

(** C1, as the code has it. When the fetch of the thread page of an entry
    fails, [get_comments_links] does not return an empty set: it goes on
    to [BeautifulSoup(None, ...)], which raises [TypeError]. The loop over
    the new entries stops with that error before
    [download_news_and_comments] is called for the entry, and nothing is
    written for it. *)
Theorem thread_fetch_failure_raises
    (env : Env) nid url news seen (fs : files) :
  fetch_result env (thread_url nid) (Some headers) = None →
  get_comments_links html_parser env nid fs = (fs, Raise TypeError) ∧
  process html_parser set_iter env ((nid, url) :: news) seen fs
  = (fs, Raise TypeError).
Proof.
  intros Hf. split.
  - by apply get_comments_links_no_page.
  - by rewrite process_cons, get_comments_links_no_page.
Qed.

(** C2, amended. [fetch] never raises: whatever the network does, it
    returns a text or [None], [None] exactly when its [try] block raised,
    and leaves the files alone. In a run in which
    every cycle meets a steady world (the disk takes every write, the
    front page parses into entries with an id, the thread pages of these
    entries come), no failed fetch of the front page, of a news page or of
    a linked page ends the crawl loop: any number of cycles, from any
    state, ends normally and hands the seen set to the next cycle. *)
Theorem fetch_failures_do_not_end_the_loop (world : nat → Env) :
  (∀ k, steady html_parser (world k)) →
  (∀ k url hdrs (fs : files), ∃ r,
     fetch (world k) url hdrs fs = (fs, Ok r) ∧
     (r = None ↔ ∃ e, session_get_text (world k) url hdrs = Raise e)) ∧
  (∀ n k seen (fs : files), ∃ fs' seen',
     main_loop html_parser set_iter world n k seen fs = (fs', Ok seen')).
Proof using set_iter_perm.
  intros Hw. split.
  - intros k url hdrs fs. exists (fetch_result (world k) url hdrs).
    split; [apply fetch_run|apply fetch_result_None].
  - intros. by apply main_loop_returns.
Qed.

(** C3, amended. When the loop over the new entries of a cycle ends
    normally, an id is in the seen set exactly when it was there before or
    belongs to an entry the loop has run through the download; an entry
    whose news page could not be fetched is added all the same. The seen
    set only grows from cycle to cycle, and an id that is in it after [m]
    cycles is not among the new entries of any later cycle, whatever the
    front page then shows. (Nothing is said of one id carried by two rows
    of the same front page.) *)
Theorem seen_news_invariant (world : nat → Env) :
  (∀ env news seen (fs fs' : files) seen',
     process html_parser set_iter env news seen fs = (fs', Ok seen') →
     ∀ nid, nid ∈ seen' ↔ nid ∈ seen ∨ nid ∈ news.*1) ∧
  (∀ env id url seen (fs : files),
     fetch_result env (thread_url (Some id)) (Some headers) ≠ None →
     truthy (fetch_result env url None) = false →
     process html_parser set_iter env [(Some id, url)] seen fs
     = (fs, Ok (seen ∪ {[Some id]}))) ∧
  (∀ m n (fs_m fs_n : files) seen_m seen_n,
     main html_parser set_iter world m ∅ = (fs_m, Ok seen_m) →
     main html_parser set_iter world (m + n) ∅ = (fs_n, Ok seen_n) →
     seen_m ⊆ seen_n ∧
     ∀ top_news (e : entry), e ∈ new_news top_news seen_n → fst e ∉ seen_m).
Proof using set_iter_perm.
  split; [|split].
  - intros env news seen fs fs' seen' H nid.
    apply process_seen in H. subst seen'. unfold ids.
    rewrite elem_of_union, elem_of_list_to_set. tauto.
  - intros env id url seen fs Hth Hf.
    destruct (fetch_result env (thread_url (Some id)) (Some headers))
      as [page|] eqn:Hp; [|done].
    rewrite process_cons, (get_comments_links_page _ _ _ _ _ Hp).
    by rewrite (download_primary_failed _ set_iter_perm _ _ _ _ _ Hf).
  - intros m n fs_m fs_n seen_m seen_n Hm Hn. unfold main in *.
    rewrite main_loop_add, Hm in Hn.
    apply main_loop_seen_grows in Hn. split; [done|].
    intros top_news e He. apply new_news_unseen in He as [He _].
    set_solver.
Qed.

(** C4, amended. When the first [TOP_N] rows of the front page are all
    complete (a non-empty id, a title link with a non-empty target),
    [parse_top_news] returns exactly [TOP_N] entries, the entries of these
    rows in document order, each with a non-empty id and a non-empty
    URL. *)
Theorem parse_top_news_first_rows_complete (page : string) :
  TOP_N ≤ length (select_tr_athing (html_parser page)) →
  Forall complete_row (take TOP_N (select_tr_athing (html_parser page))) →
  ∃ l,
    parse_top_news html_parser (Some page) = Ok l ∧
    length l = TOP_N ∧
    l = map entry_of (take TOP_N (select_tr_athing (html_parser page))) ∧
    Forall (λ e : entry, ∃ id, fst e = Some id ∧ id ≠ "" ∧ snd e ≠ "") l.
Proof.
  intros Hlen Hrows.
  exists (map entry_of (take TOP_N (select_tr_athing (html_parser page)))).
  split; [|split; [|split]].
  - unfold parse_top_news. simpl. apply for_each_parse_row_valid.
    eapply Forall_impl; [exact Hrows|].
    intros row (id & u & _ & _ & Hu & _).
    apply bool_decide_eq_true. eauto.
  - rewrite length_map, length_take. lia.
  - done.
  - apply Forall_map. eapply Forall_impl; [exact Hrows|].
    intros row (id & u & Hid & Hne & Hu & Hune).
    exists id. unfold entry_of. simpl. by rewrite Hid, Hu.
Qed.

(** [parse_top_news] never returns more than [TOP_N] entries. *)
Lemma parse_top_news_at_most_TOP_N (html : option string) l :
  parse_top_news html_parser html = Ok l → length l ≤ TOP_N.
Proof.
  unfold parse_top_news. destruct html as [page|]; [|done]. simpl.
  intros H%for_each_parse_row_length. rewrite length_take in H.
  change (length (@nil entry)) with 0 in H. lia.
Qed.

(** A write that the disk refuses, for the news page or for one linked
    page, makes [download_news_and_comments] raise [OSError]. *)
Lemma download_raises (env : Env) id url links (fs : files) html :
  fetch_result env url None = Some html → html ≠ "" →
  disk_ok env (news_path id) = false
  ∨ (∃ i link, set_iter links !! i = Some link ∧
               truthy (fetch_result env link None) = true ∧
               disk_ok env (comment_path id i) = false) →
  ∃ fs',
    download_news_and_comments set_iter env (Some id) url links fs
    = (fs', Raise OSError).
Proof using set_iter_perm.
  intros Hf Hne Hd.
  rewrite (download_run _ set_iter_perm), Hf, (truthy_text _ Hne).
  destruct (disk_ok env (news_path id)) eqn:Hnews.
  - destruct Hd as [?|(i & link & Hl & Ht & Hc)]; [done|].
    rewrite save_html_ok by exact Hnews.
    by eapply gather_raises.
  - rewrite save_html_fail by exact Hnews. eauto.
Qed.

(** C5, amended. A write that the disk refuses is not recovered. Take a
    cycle whose front page came and parsed, and an entry among its new
    entries, the entries before it having gone through: if the news page
    of the entry came and the disk refuses [news.html], or refuses the
    file of a linked page that came, then [download_news_and_comments]
    raises [OSError], the cycle raises it, and the crawl loop ends with
    it. *)
Theorem store_failure_ends_the_loop
    (world : nat → Env) n k seen (fs fs1 : files) page top_news
    before id url after seen1 links html :
  fetch_result (world k) BASE_URL None = Some page → page ≠ "" →
  parse_top_news html_parser (Some page) = Ok top_news →
  new_news top_news seen = before ++ (Some id, url) :: after →
  process html_parser set_iter (world k) before seen fs = (fs1, Ok seen1) →
  get_comments_links html_parser (world k) (Some id) fs1 = (fs1, Ok links) →
  fetch_result (world k) url None = Some html → html ≠ "" →
  disk_ok (world k) (news_path id) = false
  ∨ (∃ i link, set_iter links !! i = Some link ∧
               truthy (fetch_result (world k) link None) = true ∧
               disk_ok (world k) (comment_path id i) = false) →
  ∃ fs',
    download_news_and_comments set_iter (world k) (Some id) url links fs1
    = (fs', Raise OSError) ∧
    cycle html_parser set_iter (world k) seen fs = (fs', Raise OSError) ∧
    main_loop html_parser set_iter world (S n) k seen fs
    = (fs', Raise OSError).
Proof using set_iter_perm.
  intros Hfront Hpage Hparse Hnew Hbefore Hlinks Hf Hne Hd.
  destruct (download_raises (world k) id url links fs1 html Hf Hne Hd)
    as [fs' Hdown].
  exists fs'. split; [exact Hdown|].
  assert (cycle html_parser set_iter (world k) seen fs = (fs', Raise OSError))
    as Hcycle.
  { rewrite cycle_run, Hfront, (truthy_text _ Hpage), Hparse, Hnew.
    by rewrite process_app, Hbefore, process_cons, Hlinks, Hdown. }
  split; [exact Hcycle|]. by rewrite main_loop_S, Hcycle.
Qed.

(** C6, amended. When the fetch of the news page of an entry gives
    nothing, or gives the empty text, the entry is left and the files are
    what they were. When it gives a text that is not empty and the disk
    takes [news.html], that file holds the text once
    [download_news_and_comments] is over, for every set of links, the
    empty one included, and however the fan-out ends. *)
Theorem primary_document_rule (env : Env) id url links (fs : files) :
  (truthy (fetch_result env url None) = false →
   download_news_and_comments set_iter env (Some id) url links fs
   = (fs, Ok tt)) ∧
  (∀ html,
     fetch_result env url None = Some html → html ≠ "" →
     disk_ok env (news_path id) = true →
     ∃ fs' r,
       download_news_and_comments set_iter env (Some id) url links fs
       = (fs', r) ∧
       fs' !! news_path id = Some html).
Proof using set_iter_perm.
  split.
  - by apply download_primary_failed.
  - intros html. by apply download_primary_saved.
Qed.


(** C8, as the code has it. A row among the first [TOP_N] whose title
    line has an anchor without [href] is not skipped: the lookup
    [['href']] raises [KeyError] and [parse_top_news] returns nothing. *)
Theorem title_anchor_without_href_raises (page : string) row a :
  row ∈ take TOP_N (select_tr_athing (html_parser page)) →
  title_anchor row = Some a →
  get_attr "href" a = None →
  parse_top_news html_parser (Some page) = Raise KeyError.
Proof.
  intros Hrow Ha Hhref. unfold parse_top_news. simpl.
  by eapply for_each_parse_row_raises.
Qed.

(** C9. When the thread page came, [get_comments_links] returns the set
    of the targets of its hyperlinks that start with [http://] or
    [https://], each once. A page whose hyperlinks are [A, B, A, C], all
    absolute and [A], [B], [C] different, gives the set [{A, B, C}], of
    size 3. *)
Theorem links_are_the_absolute_targets
    (env : Env) nid (fs : files) page :
  fetch_result env (thread_url nid) (Some headers) = Some page →
  ∃ links,
    get_comments_links html_parser env nid fs = (fs, Ok links) ∧
    (∀ href, href ∈ links ↔
             href ∈ hrefs (html_parser page) ∧ absolute href = true) ∧
    (∀ A B C,
       hrefs (html_parser page) = [A; B; A; C] →
       absolute A = true → absolute B = true → absolute C = true →
       A ≠ B → A ≠ C → B ≠ C →
       links = {[A; B; C]} ∧ size links = 3).
Proof.
  clear set_iter_perm.
  intros Hf. eexists. split; [by apply get_comments_links_page|].
  split.
  - intros href. rewrite elem_of_list_to_set, list_elem_of_In, filter_In.
    by rewrite <- list_elem_of_In.
  - intros A B C -> HA HB HC HAB HAC HBC. simpl. rewrite HA, HB, HC.
    assert (list_to_set [A; B; A; C] = ({[A; B; C]} : gset string)) as ->.
    { simpl. set_solver. }
    split; [done|].
    rewrite !size_union, !size_singleton; [done|set_solver..].
Qed.

(** C10. A fetch that gives the empty text is handled as a fetch that
    gives nothing: for a linked page no file is written, for the news page
    of an entry the entry is left with nothing saved, for the front page
    the cycle is skipped. In each case the outcome is the one of the
    failed fetch. *)
Theorem empty_body_is_a_failed_fetch (env env' : Env) url :
  fetch_result env url None = Some "" →
  fetch_result env' url None = None →
  (∀ folder filename (fs : files),
     download_and_save env url folder filename fs = (fs, Ok tt) ∧
     download_and_save env' url folder filename fs = (fs, Ok tt)) ∧
  (∀ id links (fs : files),
     download_news_and_comments set_iter env (Some id) url links fs
     = (fs, Ok tt) ∧
     download_news_and_comments set_iter env' (Some id) url links fs
     = (fs, Ok tt)) ∧
  (url = BASE_URL →
   ∀ seen (fs : files),
     cycle html_parser set_iter env seen fs = (fs, Ok seen) ∧
     cycle html_parser set_iter env' seen fs = (fs, Ok seen)).
Proof using set_iter_perm.
  intros He Hn. split; [|split].
  - intros. by rewrite !download_and_save_run, He, Hn.
  - intros. rewrite !(download_primary_failed _ set_iter_perm); [done|..].
    + by rewrite Hn.
    + by rewrite He.
  - intros -> seen fs. by rewrite !cycle_run, He, Hn.
Qed.

End Claims.

(** * The claims on the sample worlds *)

Import Sample.

Lemma elements_perm (s : gset string) : elements s ≡ₚ elements s.
Proof. reflexivity. Qed.

(** C1 on the run of the specification's end-to-end scenario: the front
    page lists entries 1 and 2 and the thread page of entry 2 answers 404. *)
Lemma thread_fetch_failure_raises_witness :
  fetch_result env_thread_down (thread_url (Some "2")) (Some headers) = None ∧
  get_comments_links sample_parser env_thread_down (Some "2") ∅
  = (∅, Raise TypeError) ∧
  process sample_parser elements env_thread_down [(Some "2", u2)] {[Some "1"]} ∅
  = (∅, Raise TypeError).
Proof.
  split; [vm_compute; reflexivity|].
  apply (thread_fetch_failure_raises sample_parser elements env_thread_down
           (Some "2") u2 [] {[Some "1"]} ∅).
  vm_compute. reflexivity.
Defined.

(** The whole cycle of that scenario, the set of links enumerated as [l1],
    [l2]: entry 1 is stored with its two linked pages, then the cycle
    raises; [data/2/news.html] is never written. *)
Example end_to_end_scenario :
  let run := cycle sample_parser elements env_thread_down ∅ ∅ in
  run.2 = Raise TypeError ∧
  run.1 !! "data/1/news.html" = Some "one" ∧
  run.1 !! "data/1/comment_1.html" = Some "first" ∧
  run.1 !! "data/1/comment_2.html" = Some "second" ∧
  run.1 !! "data/2/news.html" = None.
Proof. vm_compute. repeat split. Qed.

(** C2 fails: with a disk that refuses every write, the first cycle raises
    [OSError] and [main] ends with it. *)
Lemma store_failure_leaves_the_loop :
  main sample_parser elements (λ _, env_disk_full) 1 ∅ = (∅, Raise OSError) ∧
  ¬ ∃ fs' seen',
      main sample_parser elements (λ _, env_disk_full) 1 ∅ = (fs', Ok seen').
Proof.
  split; [vm_compute; reflexivity|].
  intros (fs' & seen' & H). vm_compute in H. discriminate.
Qed.

Lemma env_pages_down_steady : steady sample_parser env_pages_down.
Proof.
  split; [intros path; reflexivity|].
  intros page Hf _. vm_compute in Hf. injection Hf as <-.
  exists [(Some "1", u1); (Some "2", u2)].
  split; [vm_compute; reflexivity|].
  intros e He.
  apply elem_of_cons in He as [->|He];
    [|apply elem_of_cons in He as [->|He]; [|by apply elem_of_nil in He]].
  - split; [by eexists|]. vm_compute. discriminate.
  - split; [by eexists|]. vm_compute. discriminate.
Defined.

(** C2, amended, on a world in which no news page and no linked page ever
    comes: three cycles go through. *)
Lemma fetch_failures_do_not_end_the_loop_witness :
  (∀ k : nat, steady sample_parser env_pages_down) ∧
  ∃ fs' seen',
    main_loop sample_parser elements (λ _, env_pages_down) 3 0 ∅ ∅
    = (fs', Ok seen').
Proof.
  split; [intros _; exact env_pages_down_steady|].
  exact (proj2 (fetch_failures_do_not_end_the_loop sample_parser elements
                  elements_perm (λ _, env_pages_down)
                  (λ _, env_pages_down_steady)) 3 0 ∅ ∅).
Defined.

(** C3 fails: two rows of one front page carry the id 7. Both are new, both
    go through the download in the same cycle, and [data/7/news.html] ends
    up with the page of the second. *)
Lemma same_id_processed_twice :
  parse_top_news sample_parser (Some front_twice_html)
  = Ok [(Some "7", u1); (Some "7", u2)] ∧
  new_news [(Some "7", u1); (Some "7", u2)] ∅
  = [(Some "7", u1); (Some "7", u2)] ∧
  ¬ NoDup ([(Some "7", u1); (Some "7", u2)].*1) ∧
  (cycle sample_parser elements env_twice ∅ ∅).2 = Ok {[Some "7"]} ∧
  (cycle sample_parser elements env_twice ∅ ∅).1 !! "data/7/news.html"
  = Some "two".
Proof.
  split; [vm_compute; reflexivity|].
  split; [vm_compute; reflexivity|].
  split; [|split; vm_compute; reflexivity].
  simpl. intros H. apply NoDup_cons in H as [H _]. apply H. by left.
Qed.

(** C3, amended: an entry whose news page does not come is marked seen, and
    what one cycle has seen is not new in the next. *)
Lemma seen_news_invariant_witness :
  process sample_parser elements env_pages_down [(Some "1", u1)] ∅ ∅
  = (∅, Ok (∅ ∪ {[Some "1"]})) ∧
  ({[Some "1"; Some "2"]} : gset (option string)) ⊆ {[Some "1"; Some "2"]} ∧
  ∀ top_news (e : entry),
    e ∈ new_news top_news {[Some "1"; Some "2"]} →
    fst e ∉ ({[Some "1"; Some "2"]} : gset (option string)).
Proof.
  destruct (seen_news_invariant sample_parser elements elements_perm
              (λ _, env_fine)) as (_ & Hfail & Hlater).
  split.
  - apply Hfail; vm_compute; [discriminate|reflexivity].
  - apply (Hlater 1 1
             (main sample_parser elements (λ _, env_fine) 1 ∅).1
             (main sample_parser elements (λ _, env_fine) 2 ∅).1);
      vm_compute; reflexivity.
Defined.

(** C4 fails: the front page has six rows; the first has no title line,
    the five behind it are complete. Five rows are valid, yet only the four
    that stand among the first [TOP_N] rows are returned. *)
Lemma five_valid_rows_behind_a_bare_row :
  ¬ (TOP_N ≤ length (List.filter valid_row
                       (select_tr_athing (sample_parser front6_html))) →
     ∃ l, parse_top_news sample_parser (Some front6_html) = Ok l ∧
          length l = TOP_N).
Proof.
  intros H. destruct H as (l & Hl & Hlen).
  - vm_compute. lia.
  - vm_compute in Hl. injection Hl as <-. vm_compute in Hlen. discriminate.
Qed.

Lemma row_complete (id u : string) :
  id ≠ "" → u ≠ "" → complete_row (row id u).
Proof. intros Hid Hu. exists id, u. repeat split; done. Qed.

(** C4, amended, on a front page with five complete rows. *)
Lemma parse_top_news_first_rows_complete_witness :
  ∃ l,
    parse_top_news sample_parser (Some front5_html) = Ok l ∧
    length l = TOP_N ∧
    l = map entry_of (take TOP_N (select_tr_athing (sample_parser front5_html))) ∧
    Forall (λ e : entry, ∃ id, fst e = Some id ∧ id ≠ "" ∧ snd e ≠ "") l.
Proof.
  apply (parse_top_news_first_rows_complete sample_parser front5_html).
  - vm_compute. lia.
  - replace (take TOP_N (select_tr_athing (sample_parser front5_html)))
      with front5 by (vm_compute; reflexivity).
    repeat (apply Forall_cons; split; [by apply row_complete|]).
    apply Forall_nil_2.
Defined.

(** C5 fails: the disk refuses [data/1/comment_1.html] and nothing else.
    [main] ends with [OSError] in its first cycle, and entry 2 of that
    cycle is never downloaded. *)
Lemma refused_comment_leaves_the_loop :
  let run := main sample_parser elements (λ _, env_comment_refused) 2 ∅ in
  run.2 = Raise OSError ∧
  run.1 !! "data/1/news.html" = Some "one" ∧
  run.1 !! "data/2/news.html" = None.
Proof. vm_compute. repeat split. Qed.

(** C5, amended, on that world. *)
Lemma store_failure_ends_the_loop_witness :
  ∃ fs',
    download_news_and_comments elements env_comment_refused (Some "1") u1
      {[l1; l2]} ∅ = (fs', Raise OSError) ∧
    cycle sample_parser elements env_comment_refused ∅ ∅
    = (fs', Raise OSError) ∧
    main_loop sample_parser elements (λ _, env_comment_refused) 1 0 ∅ ∅
    = (fs', Raise OSError).
Proof.
  apply (store_failure_ends_the_loop sample_parser elements elements_perm
           (λ _, env_comment_refused) 0 0 ∅ ∅ ∅ front2_html
           [(Some "1", u1); (Some "2", u2)] [] "1" u1 [(Some "2", u2)]
           ∅ {[l1; l2]} "one").
  - vm_compute; reflexivity.
  - discriminate.
  - vm_compute; reflexivity.
  - vm_compute; reflexivity.
  - vm_compute; reflexivity.
  - vm_compute; reflexivity.
  - vm_compute; reflexivity.
  - discriminate.
  - right. exists 0, l1. repeat split; vm_compute; reflexivity.
Defined.

(** C6 fails: the news page of the entry is answered with status 200 and an
    empty body. The fetch has succeeded, it hands back a text and not
    [None], and the disk would take the write; yet the entry is left and no
    [news.html] is written. *)
Lemma empty_primary_page_is_not_saved :
  session_get_text env_empty_body u1 None = Ok "" ∧
  fetch_result env_empty_body u1 None = Some "" ∧
  disk_ok env_empty_body (news_path "1") = true ∧
  download_news_and_comments elements env_empty_body (Some "1") u1 ∅ ∅
  = (∅, Ok tt) ∧
  (download_news_and_comments elements env_empty_body (Some "1") u1 ∅ ∅).1
    !! news_path "1" = None.
Proof. vm_compute. repeat split. Qed.

(** C6, amended, on two worlds: no answer at all, and a news page that comes for an
    entry without links. *)
Lemma primary_document_rule_witness :
  download_news_and_comments elements env_no_answer (Some "1") u1 {[l1]} ∅
  = (∅, Ok tt) ∧
  ∃ fs' r,
    download_news_and_comments elements env_link_down (Some "1") u1 ∅ ∅
    = (fs', r) ∧
    fs' !! news_path "1" = Some "one".
Proof.
  split.
  - apply (proj1 (primary_document_rule elements elements_perm
                    env_no_answer "1" u1 {[l1]} ∅)).
    vm_compute. reflexivity.
  - apply (proj2 (primary_document_rule elements elements_perm
                    env_link_down "1" u1 ∅ ∅) "one").
    + vm_compute. reflexivity.
    + discriminate.
    + vm_compute. reflexivity.
Defined.


(** The files of that run: the two links that came are saved under their
    position in the enumeration, the third position has no file. *)
Example fanout_files :
  let run := download_news_and_comments elements env_link_down (Some "1") u1
               {[l1; l2; l3]} ∅ in
  elements ({[l1; l2; l3]} : gset string) = [l3; l1; l2] ∧
  run.2 = Ok tt ∧
  run.1 !! "data/1/news.html" = Some "one" ∧
  run.1 !! "data/1/comment_1.html" = Some "third" ∧
  run.1 !! "data/1/comment_2.html" = Some "first" ∧
  run.1 !! "data/1/comment_3.html" = None.
Proof. vm_compute. repeat split. Qed.

(** C8 on a front page whose only row has a title anchor without [href]. *)
Lemma title_anchor_without_href_raises_witness :
  parse_top_news sample_parser (Some front_anchor_html) = Raise KeyError.
Proof.
  apply (title_anchor_without_href_raises sample_parser front_anchor_html
           (anchor_row "1") (Elem "a" [] {[ "name" := "top" ]} [Text "t"])).
  - vm_compute. apply list_elem_of_here.
  - vm_compute. reflexivity.
  - vm_compute. reflexivity.
Defined.

(** C9 on a thread page with the links [l1], [l2], [l1], [l3]. *)
Lemma links_are_the_absolute_targets_witness :
  ∃ links,
    get_comments_links sample_parser env_thread4 (Some "1") ∅ = (∅, Ok links) ∧
    links = {[l1; l2; l3]} ∧ size links = 3.
Proof.
  destruct (links_are_the_absolute_targets sample_parser env_thread4
              (Some "1") ∅ thread4_html) as (links & Hrun & _ & Hsize).
  - vm_compute. reflexivity.
  - exists links. split; [exact Hrun|].
    apply Hsize; try discriminate; vm_compute; reflexivity.
Defined.

(** C10 on a world that answers every request with an empty body and a
    world that answers none. *)
Lemma empty_body_is_a_failed_fetch_witness :
  (∀ folder filename (fs : files),
     download_and_save env_empty_body BASE_URL folder filename fs = (fs, Ok tt) ∧
     download_and_save env_no_answer BASE_URL folder filename fs = (fs, Ok tt)) ∧
  (∀ id links (fs : files),
     download_news_and_comments elements env_empty_body (Some id) BASE_URL links fs
     = (fs, Ok tt) ∧
     download_news_and_comments elements env_no_answer (Some id) BASE_URL links fs
     = (fs, Ok tt)) ∧
  (∀ seen (fs : files),
     cycle sample_parser elements env_empty_body seen fs = (fs, Ok seen) ∧
     cycle sample_parser elements env_no_answer seen fs = (fs, Ok seen)).
Proof.
  destruct (empty_body_is_a_failed_fetch sample_parser elements elements_perm
              env_empty_body env_no_answer BASE_URL)
    as (Hlink & Hnews & Hfront).
  - vm_compute. reflexivity.
  - vm_compute. reflexivity.
  - split; [exact Hlink|]. split; [exact Hnews|]. by apply Hfront.
Defined.

(** * Further properties of the code *)

(** ** [fetch] *)

(** X1. [fetch] never raises and never touches a file. It hands back a text
    exactly when the request was answered with a status below 400 and a body
    that decodes to that text; in every other case it hands back [None]. *)
Theorem fetch_text_iff (env : Env) url hdrs (fs : files) :
  ∃ r,
    fetch env url hdrs fs = (fs, Ok r) ∧
    ∀ text, r = Some text ↔
            ∃ status, http_get env url hdrs = Response status (Some text) ∧
                      status < 400.
Proof.
  exists (fetch_result env url hdrs). split; [apply fetch_run|].
  intros text. unfold fetch_result, session_get_text.
  destruct (http_get env url hdrs) as [|status body].
  - split; [done|]. by intros (? & ? & _).
  - destruct (Nat.leb_spec 400 status) as [Hs|Hs].
    + split; [done|]. intros (st & [= -> _] & Hlt). lia.
    + destruct body as [b|].
      * split.
        -- intros [= ->]. eauto.
        -- by intros (st & [= _ ->] & _).
      * split; [done|]. by intros (st & [= _ ?] & _).
Qed.

(** ** [parse_top_news] *)

(** The only way for a row to make the loop raise. *)
Lemma parse_row_raise_inv (row : node) (links : list entry) e :
  parse_row row links = Raise e →
  e = KeyError ∧ ∃ a, title_anchor row = Some a ∧ get_attr "href" a = None.
Proof.
  unfold parse_row, title_anchor.
  destruct (find_class "span" "titleline" row) as [span|]; simpl; [|done].
  destruct (find "a" span) as [a|]; [|done].
  unfold getitem. destruct (get_attr "href" a) eqn:Hh; simpl; [done|].
  intros [= <-]. eauto.
Qed.

Lemma for_each_parse_row_filter (rows : list node) (links : list entry) :
  (∀ row a, row ∈ rows → title_anchor row = Some a →
            is_Some (get_attr "href" a)) →
  for_each parse_row rows links
  = Ok (links ++ map entry_of (List.filter valid_row rows)).
Proof.
  revert links. induction rows as [|row rows IH]; intros links Hrows.
  - simpl. by rewrite app_nil_r.
  - cbn [for_each List.filter].
    destruct (parse_row_cases row links) as [[Hr Hv]|[[Hr Hv]|[Hr _]]].
    + rewrite Hr, Hv. cbn [mbind result_bind map].
      rewrite IH by (intros r a Hin; apply Hrows; by right).
      by rewrite <- app_assoc.
    + rewrite Hr, Hv. cbn [mbind result_bind].
      apply IH. intros r a Hin. apply Hrows. by right.
    + apply parse_row_raise_inv in Hr as (_ & a & Ha & Hh).
      destruct (Hrows row a) as [u Hu]; [by left|done|congruence].
Qed.


Section Parse.

Variable html_parser : string → list node.

(** X2. When every title anchor among the first [TOP_N] rows has an
    [href], [parse_top_news] returns the entries of the rows with a title
    link among these first [TOP_N] rows, in document order, and of no other
    row: rows without a title line or without an anchor are passed over,
    rows behind the first [TOP_N] are never looked at. *)
Theorem parse_top_news_valid_rows (page : string) :
  (∀ row a, row ∈ take TOP_N (select_tr_athing (html_parser page)) →
            title_anchor row = Some a → is_Some (get_attr "href" a)) →
  parse_top_news html_parser (Some page)
  = Ok (map entry_of
          (List.filter valid_row
             (take TOP_N (select_tr_athing (html_parser page))))).
Proof.
  intros H. unfold parse_top_news. simpl.
  by rewrite for_each_parse_row_filter.
Qed.


End Parse.

(** ** [get_comments_links] *)

Lemma size_list_to_set_le (l : list string) :
  size (list_to_set l : gset string) ≤ length l.
Proof.
  induction l as [|x l IH].
  - cbn [list_to_set length]. by rewrite size_empty.
  - cbn [list_to_set length]. rewrite size_union_alt, size_singleton.
    assert (size (list_to_set l ∖ {[x]} : gset string)
            ≤ size (list_to_set l : gset string)).
    { apply subseteq_size. set_solver. }
    lia.
Qed.

Lemma filter_nil_iff {A} (f : A → bool) (l : list A) :
  List.filter f l = [] ↔ Forall (λ x, f x = false) l.
Proof.
  induction l as [|x l IH]; simpl.
  - split; [by constructor|done].
  - destruct (f x) eqn:Hx.
    + split; [done|]. intros H. apply Forall_cons in H as [H _]. congruence.
    + rewrite IH. split.
      * intros H. by constructor.
      * intros H. by apply Forall_cons in H as [_ H].
Qed.

Section MoreLinks.

Variable html_parser : string → list node.

(** X4. When the thread page came, [get_comments_links] returns a set with
    at most as many links as the page has hyperlinks, and the set is
    empty exactly when no hyperlink of the page starts with [http://] or
    [https://]: a page without links, or with relative links only, gives
    the empty set and no error. *)
Theorem get_comments_links_empty_iff (env : Env) nid (fs : files) page :
  fetch_result env (thread_url nid) (Some headers) = Some page →
  ∃ links,
    get_comments_links html_parser env nid fs = (fs, Ok links) ∧
    size links ≤ length (hrefs (html_parser page)) ∧
    (links = ∅ ↔
     Forall (λ href, absolute href = false) (hrefs (html_parser page))).
Proof.
  intros Hf. eexists. split; [by apply get_comments_links_page|]. split.
  - etrans; [apply size_list_to_set_le|]. apply filter_length_le.
  - rewrite <- filter_nil_iff. split.
    + intros H. destruct (List.filter _ _) as [|x l]; [done|].
      exfalso. assert (x ∈ (∅ : gset string)) as Hx; [|set_solver].
      rewrite <- H. set_solver.
    + by intros ->.
Qed.

(** X5. [get_comments_links] writes nothing: the files are the same after
    it as before, whether it returns a set or raises. *)
Theorem get_comments_links_writes_nothing (env : Env) nid (fs : files) :
  (get_comments_links html_parser env nid fs).1 = fs.
Proof.
  destruct (get_comments_links html_parser env nid fs) as [fs' r] eqn:H.
  by apply get_comments_links_files in H.
Qed.

End MoreLinks.

(** ** What a run does to the files *)

Lemma io_bind_grows {A B} (m : io A) (f : A → io B) :
  (∀ fs : files, dom fs ⊆ dom (m fs).1) →
  (∀ a (fs : files), dom fs ⊆ dom (f a fs).1) →
  ∀ fs : files, dom fs ⊆ dom ((m ≫= f) fs).1.
Proof.
  intros Hm Hf fs. rewrite io_bind_run. specialize (Hm fs).
  destruct (m fs) as [fs1 [a|e]]; simpl in *; [|done].
  etrans; [exact Hm|apply Hf].
Qed.

Lemma save_html_grows (env : Env) folder filename html (fs : files) :
  dom fs ⊆ dom (save_html env folder filename html fs).1.
Proof.
  unfold save_html. destruct (disk_ok env _); [|done].
  destruct html; simpl; rewrite dom_insert_L; set_solver.
Qed.

Lemma download_and_save_grows (env : Env) url folder filename (fs : files) :
  dom fs ⊆ dom (download_and_save env url folder filename fs).1.
Proof.
  rewrite download_and_save_run. destruct (truthy _); [|done].
  apply save_html_grows.
Qed.

Lemma gather_grows (tasks : list (io unit)) :
  Forall (λ t : io unit, ∀ fs : files, dom fs ⊆ dom (t fs).1) tasks →
  ∀ fs : files, dom fs ⊆ dom (gather tasks fs).1.
Proof.
  induction tasks as [|t tasks IH]; intros Ht; [done|].
  apply Forall_cons in Ht as [Ht Hts]. simpl.
  apply io_bind_grows; [exact Ht|]. intros _. by apply IH.
Qed.

Lemma gather_raise_inv (env : Env) folder (names : nat → string) l
      (fs fs' : files) e :
  gather (imap (λ i link, download_and_save env link folder (names i)) l) fs
  = (fs', Raise e) →
  e = OSError.
Proof.
  revert names fs. induction l as [|x l IH]; intros names fs H; [done|].
  rewrite imap_cons in H. simpl in H. rewrite io_bind_run in H.
  destruct (download_and_save_cases env x folder (names 0) fs)
    as [(text & _ & _ & _ & Hx) | [[_ Hx] | (_ & _ & Hx)]];
    rewrite Hx in H.
  - by apply (IH (names ∘ S)) in H.
  - by apply (IH (names ∘ S)) in H.
  - by injection H as _ <-.
Qed.

Section Files.

Variable html_parser : string → list node.
Variable set_iter : gset string → list string.
Hypothesis set_iter_perm : ∀ s : gset string, set_iter s ≡ₚ elements s.

Lemma download_grows (env : Env) news_id url links (fs : files) :
  dom fs ⊆ dom (download_news_and_comments set_iter env news_id url links fs).1.
Proof.
  revert fs. unfold download_news_and_comments.
  apply io_bind_grows; [done|]. intros folder.
  apply io_bind_grows; [done|]. intros news_html.
  destruct (negb (truthy news_html)); [done|].
  apply io_bind_grows; [apply save_html_grows|]. intros _.
  destruct (bool_decide (links = ∅)); [done|].
  apply gather_grows, Forall_forall. intros t Ht.
  apply elem_of_lookup_imap in Ht as (i & link & -> & _).
  apply download_and_save_grows.
Qed.

Lemma process_grows (env : Env) news seen (fs : files) :
  dom fs ⊆ dom (process html_parser set_iter env news seen fs).1.
Proof.
  revert seen fs. induction news as [|[nid url] news IH]; intros seen fs; [done|].
  rewrite process_cons.
  destruct (get_comments_links html_parser env nid fs) as [fs1 r] eqn:Hg.
  apply get_comments_links_files in Hg as ->.
  destruct r as [news_links|e]; [|done].
  pose proof (download_grows env nid url news_links fs) as Hd.
  destruct (download_news_and_comments _ _ _ _ _ _) as [fs2 [[]|e]];
    simpl in Hd; [|done].
  etrans; [exact Hd|apply IH].
Qed.

Lemma cycle_grows (env : Env) seen (fs : files) :
  dom fs ⊆ dom (cycle html_parser set_iter env seen fs).1.
Proof.
  rewrite cycle_run. destruct (truthy _); [|done].
  destruct (parse_top_news _ _); [apply process_grows|done].
Qed.

(** X6. The crawler never removes a file: after any number of cycles, and
    whether the loop is still running or has raised, every path that held a
    file before holds one. (Its content may have been written anew.) *)
Theorem crawler_never_deletes (world : nat → Env) n k seen (fs : files) :
  dom fs ⊆ dom (main_loop html_parser set_iter world n k seen fs).1.
Proof.
  revert k seen fs. induction n as [|n IH]; intros k seen fs; [done|].
  rewrite main_loop_S.
  pose proof (cycle_grows (world k) seen fs) as Hc.
  destruct (cycle _ _ _ _ _) as [fs1 [seen1|e]]; simpl in Hc; [|done].
  etrans; [exact Hc|apply IH].
Qed.

Lemma download_frame (env : Env) id url links (fs : files) path :
  path ≠ news_path id →
  (∀ i, path ≠ comment_path id i) →
  (download_news_and_comments set_iter env (Some id) url links fs).1 !! path
  = fs !! path.
Proof using set_iter_perm.
  intros Hnews Hcomment. rewrite (download_run _ set_iter_perm).
  destruct (truthy (fetch_result env url None)) eqn:Ht; [|done].
  destruct (truthy_Some _ Ht) as (html & -> & Hne).
  unfold save_html. destruct (disk_ok env _); [|done].
  destruct (gather _ _) as [fs' r] eqn:Hg. simpl.
  apply gather_frame with (p := path) in Hg; [|exact Hcomment].
  rewrite Hg. apply lookup_insert_ne. by apply not_eq_sym.
Qed.

(** X8. Running [download_news_and_comments] again for the same entry in
    the same world and in the same process, where the set of links is
    enumerated in the same order both times, on the files its first run
    left, changes nothing: when the disk takes every write under the folder
    of the entry, the second run ends normally with the very same files.
    (After a restart the enumeration may be another one, and with it the
    numbering of the linked pages: see [download_again_other_order].) *)
Theorem download_again_changes_nothing
    (env : Env) id url links (fs fs' : files) :
  (∀ name, disk_ok env (posix_join (posix_join NEWS_DIR id) name) = true) →
  download_news_and_comments set_iter env (Some id) url links fs = (fs', Ok tt) →
  download_news_and_comments set_iter env (Some id) url links fs' = (fs', Ok tt).
Proof using set_iter_perm.
  intros Hd Hrun.
  destruct (truthy (fetch_result env url None)) eqn:Ht.
  - destruct (truthy_Some _ Ht) as (html & Hf & Hne).
    destruct (download_fanout set_iter set_iter_perm env id url links fs html
                Hf Hne Hd) as (fs1 & Hrun1 & Hnews1 & Hin1 & Hout1).
    rewrite Hrun in Hrun1. injection Hrun1 as <-.
    destruct (download_fanout set_iter set_iter_perm env id url links fs' html
                Hf Hne Hd) as (fs2 & Hrun2 & Hnews2 & Hin2 & Hout2).
    rewrite Hrun2. f_equal. apply map_eq. intros p.
    destruct (decide (p = news_path id)) as [->|Hp]; [congruence|].
    destruct (decide (p ∈ comment_path id <$> seq 0 (length (set_iter links))))
      as [Hin|Hnin].
    + apply list_elem_of_fmap in Hin as (i & -> & Hi).
      apply elem_of_seq in Hi as [_ Hi]. simpl in Hi.
      destruct (lookup_lt_is_Some_2 (set_iter links) i Hi) as [link Hl].
      rewrite (Hin2 i link Hl), (Hin1 i link Hl).
      destruct (truthy (fetch_result env link None)); reflexivity.
    + apply Hout2; [done|]. intros i Hi ->. apply Hnin.
      apply list_elem_of_fmap. exists i. split; [done|].
      apply elem_of_seq. lia.
  - rewrite (download_primary_failed _ set_iter_perm _ _ _ _ _ Ht) in Hrun.
    injection Hrun as <-.
    by apply download_primary_failed.
Qed.

End Files.

(** ** The loop over the new entries and the cycle *)

Lemma new_news_all_seen (top_news : list entry) (seen : gset (option string)) :
  (∀ e : entry, e ∈ top_news → fst e ∈ seen) → new_news top_news seen = [].
Proof.
  intros H. unfold new_news. apply filter_nil_iff, Forall_forall.
  intros e He. apply bool_decide_eq_false. intros Hn. by apply Hn, H.
Qed.

Lemma ids_new_news (top_news : list entry) (seen : gset (option string)) :
  seen ∪ ids (new_news top_news seen) = seen ∪ ids top_news.
Proof.
  apply set_eq. intros nid. unfold ids.
  rewrite !elem_of_union, !elem_of_list_to_set, !list_elem_of_fmap.
  split.
  - intros [H|(e & -> & He)]; [by left|].
    right. exists e. split; [done|]. by apply new_news_unseen in He as [_ He].
  - intros [H|(e & -> & He)]; [by left|].
    destruct (decide (fst e ∈ seen)) as [Hs|Hs]; [by left|].
    right. exists e. split; [done|].
    unfold new_news. apply list_elem_of_In, filter_In.
    split; [by apply list_elem_of_In|by apply bool_decide_eq_true].
Qed.

Section MoreLoop.

Variable html_parser : string → list node.
Variable set_iter : gset string → list string.
Hypothesis set_iter_perm : ∀ s : gset string, set_iter s ≡ₚ elements s.

(** X9. When a cycle has fetched and parsed the front page and ended
    normally, the seen set holds, besides what it held, the id of every
    entry of that front page, the ones that were new and the ones that were
    not. *)
Theorem seen_after_cycle (env : Env) seen (fs fs' : files) seen' page top_news :
  fetch_result env BASE_URL None = Some page → page ≠ "" →
  parse_top_news html_parser (Some page) = Ok top_news →
  cycle html_parser set_iter env seen fs = (fs', Ok seen') →
  seen' = seen ∪ ids top_news.
Proof.
  intros Hf Hne Hp. rewrite cycle_run, Hf, (truthy_text _ Hne), Hp.
  intros H. apply process_seen in H. by rewrite ids_new_news in H.
Qed.

(** X10. A cycle that ended normally has left nothing to do: a further
    cycle in the same world, started from the seen set and the files it
    left, downloads nothing and changes neither of them. *)
Theorem cycle_again_changes_nothing (env : Env) seen (fs fs' : files) seen' :
  cycle html_parser set_iter env seen fs = (fs', Ok seen') →
  cycle html_parser set_iter env seen' fs' = (fs', Ok seen').
Proof.
  rewrite !cycle_run. destruct (truthy _).
  - destruct (parse_top_news _ _) as [top_news|]; [|done].
    intros H. apply process_seen in H. rewrite ids_new_news in H.
    rewrite new_news_all_seen; [done|].
    intros e He. subst seen'. apply elem_of_union_r.
    unfold ids. apply elem_of_list_to_set, list_elem_of_fmap. eauto.
  - by intros [= <- <-].
Qed.

(** X11. An entry without an id (a row that has no [id] attribute) cannot
    be processed: whether its thread page comes or not, the loop over the
    new entries raises [TypeError] at it without having written anything
    for it, and the entries behind it are not reached. *)
Theorem entry_without_id_raises (env : Env) url news seen (fs : files) :
  process html_parser set_iter env ((None, url) :: news) seen fs
  = (fs, Raise TypeError).
Proof.
  rewrite process_cons.
  destruct (fetch_result env (thread_url None) (Some headers)) as [page|] eqn:Hf.
  - by rewrite (get_comments_links_page _ _ _ _ _ Hf).
  - by rewrite (get_comments_links_no_page _ _ _ _ Hf).
Qed.



(** X13. The loop over the new entries goes through them one after the
    other and stops at the first that raises: the entries before it have
    been processed, the entries behind it are never reached, whatever they
    are. *)
Theorem process_stops_at_first_error
    (env : Env) before e after seen seen1 (fs fs1 fs2 : files) err :
  process html_parser set_iter env before seen fs = (fs1, Ok seen1) →
  process html_parser set_iter env [e] seen1 fs1 = (fs2, Raise err) →
  process html_parser set_iter env (before ++ e :: after) seen fs
  = (fs2, Raise err).
Proof.
  intros Hb He. rewrite process_app, Hb. destruct e as [nid url].
  rewrite process_cons in He |- *.
  destruct (get_comments_links _ _ _ _) as [fs3 [news_links|e3]]; [|done].
  destruct (download_news_and_comments _ _ _ _ _ _) as [fs4 [[]|e4]]; done.
Qed.

End MoreLoop.

(** ** Where the files go *)

Lemma string_app_assoc (s1 s2 s3 : string) :
  (s1 +:+ s2) +:+ s3 = s1 +:+ s2 +:+ s3.
Proof.
  induction s1 as [|c s1 IH]; [done|].
  change (String c ((s1 +:+ s2) +:+ s3) = String c (s1 +:+ s2 +:+ s3)).
  by rewrite IH.
Qed.

Lemma endswith_sep_app (a b : string) :
  b ≠ "" → endswith_sep (a +:+ b) = endswith_sep b.
Proof.
  intros Hb. induction a as [|c a IH]; [done|].
  change (String c a +:+ b) with (String c (a +:+ b)).
  cbn [endswith_sep]. destruct (a +:+ b) as [|d s] eqn:Hab; [|exact IH].
  destruct a as [|c' a'].
  - change (b = "") in Hab. congruence.
  - change (String c' (a' +:+ b) = "") in Hab. discriminate.
Qed.

(** An id is plain when it is not empty, does not start with a slash and
    does not end with one. *)
Lemma posix_join_plain (id name : string) :
  id ≠ "" → startswith id "/" = false → endswith_sep id = false →
  startswith name "/" = false →
  posix_join (posix_join NEWS_DIR id) name = "data/" +:+ id +:+ "/" +:+ name.
Proof.
  intros Hne Hstart Hend Hname. unfold posix_join at 2. rewrite Hstart.
  change (if String.eqb NEWS_DIR "" || endswith_sep NEWS_DIR
          then NEWS_DIR +:+ id else NEWS_DIR +:+ "/" +:+ id)
    with ("data/" +:+ id).
  unfold posix_join. rewrite Hname.
  rewrite (endswith_sep_app "data/" id Hne), Hend.
  change (String.eqb ("data/" +:+ id) "") with false. simpl.
  by rewrite string_app_assoc.
Qed.

(** X14. The layout on disk. For a plain id (not empty, no slash at either
    end) the news page goes to [data/<id>/news.html] and the linked page at
    position [i] of the enumeration (from 0) to
    [data/<id>/comment_<i+1>.html], in decimal. *)
Theorem archive_layout (id : string) :
  id ≠ "" → startswith id "/" = false → endswith_sep id = false →
  news_path id = "data/" +:+ id +:+ "/news.html" ∧
  ∀ i, comment_path id i
       = "data/" +:+ id +:+ "/comment_" +:+ pretty (i + 1) +:+ ".html".
Proof.
  intros Hne Hstart Hend. split.
  - unfold news_path. by rewrite posix_join_plain.
  - intros i. unfold comment_path. by rewrite posix_join_plain.
Qed.

(** X15. Within one entry no two files share a path: the files of two
    positions of the enumeration differ and none of them is [news.html].
    The news pages of two different plain ids have different paths. *)
Theorem archive_paths_distinct :
  (∀ id i j, comment_path id i = comment_path id j → i = j) ∧
  (∀ id i, comment_path id i ≠ news_path id) ∧
  (∀ id1 id2,
     id1 ≠ "" → startswith id1 "/" = false → endswith_sep id1 = false →
     id2 ≠ "" → startswith id2 "/" = false → endswith_sep id2 = false →
     news_path id1 = news_path id2 → id1 = id2).
Proof.
  split; [|split].
  - intros id i j. apply comment_path_inj.
  - intros id i H. by apply (comment_path_not_news (posix_join NEWS_DIR id) i).
  - intros id1 id2 H1 H2 H3 H4 H5 H6. unfold news_path.
    rewrite !posix_join_plain by done. intros H.
    apply (inj (String.app "data/")) in H.
    by apply string_append_cancel_r in H.
Qed.

Section Escape.

Variable set_iter : gset string → list string.
Hypothesis set_iter_perm : ∀ s : gset string, set_iter s ≡ₚ elements s.

(** X16. An id that starts with a slash is taken by [os.path.join] as an
    absolute path and [NEWS_DIR] is dropped: the news page of such an entry
    is written to [<id>/news.html], outside the [data] folder. *)
Theorem absolute_id_leaves_news_dir (env : Env) id url links (fs : files) html :
  startswith id "/" = true →
  fetch_result env url None = Some html → html ≠ "" →
  disk_ok env (posix_join id "news.html") = true →
  posix_join NEWS_DIR id = id ∧
  ∃ fs' r,
    download_news_and_comments set_iter env (Some id) url links fs = (fs', r) ∧
    fs' !! posix_join id "news.html" = Some html.
Proof using set_iter_perm.
  intros Hid Hf Hne Hd.
  assert (posix_join NEWS_DIR id = id) as Hj.
  { unfold posix_join. by rewrite Hid. }
  split; [exact Hj|].
  destruct (download_primary_saved set_iter set_iter_perm env id url links fs
              html Hf Hne) as (fs' & r & Hrun & Hnews).
  - unfold news_path. by rewrite Hj.
  - exists fs', r. split; [exact Hrun|].
    unfold news_path in Hnews. by rewrite Hj in Hnews.
Qed.

End Escape.

(** ** The further properties on the sample worlds *)

(** X2 on the front page with a bare row before five complete rows: the
    four complete rows among the first five are returned. *)
Lemma parse_top_news_valid_rows_witness :
  parse_top_news sample_parser (Some front6_html)
  = Ok (map entry_of
          (List.filter valid_row
             (take TOP_N (select_tr_athing (sample_parser front6_html))))).
Proof.
  apply (parse_top_news_valid_rows sample_parser front6_html).
  replace (take TOP_N (select_tr_athing (sample_parser front6_html)))
    with [bare_row "0"; row "1" u1; row "2" u2; row "3" u3; row "4" u4]
    by (vm_compute; reflexivity).
  intros r a Hin Ha.
  repeat (apply elem_of_cons in Hin as [->|Hin];
          [vm_compute in Ha; first [discriminate|injection Ha as <-];
           vm_compute; by eexists|]).
  by apply elem_of_nil in Hin.
Defined.


(** X4 on a thread page without any link. *)
Lemma get_comments_links_empty_iff_witness :
  ∃ links,
    get_comments_links sample_parser env_fine (Some "2") ∅ = (∅, Ok links) ∧
    size links ≤ length (hrefs (sample_parser quiet_html)) ∧
    (links = ∅ ↔
     Forall (λ href, absolute href = false) (hrefs (sample_parser quiet_html))).
Proof.
  apply (get_comments_links_empty_iff sample_parser env_fine (Some "2") ∅
           quiet_html).
  vm_compute. reflexivity.
Defined.

(** X8: a second download of entry 1, one of its three links answering
    404, on the files of the first. *)
Lemma download_again_changes_nothing_witness :
  let fs' := (download_news_and_comments elements env_link_down (Some "1") u1
                {[l1; l2; l3]} ∅).1 in
  download_news_and_comments elements env_link_down (Some "1") u1
    {[l1; l2; l3]} fs' = (fs', Ok tt).
Proof.
  apply (download_again_changes_nothing elements elements_perm env_link_down
           "1" u1 {[l1; l2; l3]} ∅).
  - intros name. reflexivity.
  - vm_compute. reflexivity.
Defined.

(** X9 on the first cycle of the world in which everything is served. *)
Lemma seen_after_cycle_witness :
  ({[Some "1"; Some "2"]} : gset (option string))
  = ∅ ∪ ids [(Some "1", u1); (Some "2", u2)].
Proof.
  apply (seen_after_cycle sample_parser elements env_fine ∅ ∅
           (cycle sample_parser elements env_fine ∅ ∅).1
           {[Some "1"; Some "2"]} front2_html
           [(Some "1", u1); (Some "2", u2)]).
  - vm_compute. reflexivity.
  - discriminate.
  - vm_compute. reflexivity.
  - vm_compute. reflexivity.
Defined.

(** X10: a second cycle in that world. *)
Lemma cycle_again_changes_nothing_witness :
  let fs' := (cycle sample_parser elements env_fine ∅ ∅).1 in
  cycle sample_parser elements env_fine {[Some "1"; Some "2"]} fs'
  = (fs', Ok {[Some "1"; Some "2"]}).
Proof.
  apply (cycle_again_changes_nothing sample_parser elements env_fine ∅ ∅).
  vm_compute. reflexivity.
Defined.


(** X13 on the world in which the thread page of entry 2 answers 404: entry
    1 goes through, entry 2 raises, a third entry is never reached. *)
Lemma process_stops_at_first_error_witness :
  let fs1 := (process sample_parser elements env_thread_down [(Some "1", u1)]
                ∅ ∅).1 in
  process sample_parser elements env_thread_down
    ([(Some "1", u1)] ++ (Some "2", u2) :: [(Some "3", u3)]) ∅ ∅
  = (fs1, Raise TypeError).
Proof.
  cbv zeta.
  apply (process_stops_at_first_error sample_parser elements env_thread_down
           [(Some "1", u1)] (Some "2", u2) [(Some "3", u3)] ∅ {[Some "1"]} ∅
           (process sample_parser elements env_thread_down [(Some "1", u1)]
              ∅ ∅).1).
  - vm_compute. reflexivity.
  - vm_compute. reflexivity.
Defined.

(** X14 for the id [1]. *)
Lemma archive_layout_witness :
  news_path "1" = "data/" +:+ "1" +:+ "/news.html" ∧
  ∀ i, comment_path "1" i
       = "data/" +:+ "1" +:+ "/comment_" +:+ pretty (i + 1) +:+ ".html".
Proof.
  apply (archive_layout "1"); [discriminate|reflexivity|reflexivity].
Defined.

(** X16 for the id [/tmp]. *)
Lemma absolute_id_leaves_news_dir_witness :
  posix_join NEWS_DIR "/tmp" = "/tmp" ∧
  ∃ fs' r,
    download_news_and_comments elements env_link_down (Some "/tmp") u1 ∅ ∅
    = (fs', r) ∧
    fs' !! posix_join "/tmp" "news.html" = Some "one".
Proof.
  apply (absolute_id_leaves_news_dir elements elements_perm env_link_down
           "/tmp" u1 ∅ ∅ "one").
  - reflexivity.
  - vm_compute. reflexivity.
  - discriminate.
  - reflexivity.
Defined.

(** ** What a cycle leaves on disk *)

Lemma no_slash_plain (id : string) :
  no_slash id = true → startswith id "/" = false ∧ endswith_sep id = false.
Proof.
  intros H. split.
  - destruct id as [|c id]; [done|]. simpl in H.
    apply andb_true_iff in H as [Hc _].
    unfold startswith. cbn [String.prefix].
    destruct (Ascii.ascii_dec "/" c) as [<-|]; [|done].
    by rewrite Ascii.eqb_refl in Hc.
  - induction id as [|c id IH]; [done|]. simpl in H.
    apply andb_true_iff in H as [Hc Hid]. cbn [endswith_sep].
    destruct id as [|d id]; [|by apply IH].
    by destruct (Ascii.eqb c "/").
Qed.

(** Two names joined behind two strings without a slash: the strings are
    the same as soon as the results are. *)
Lemma no_slash_split (a b x y : string) :
  no_slash a = true → no_slash b = true →
  a +:+ "/" +:+ x = b +:+ "/" +:+ y → a = b.
Proof.
  revert b. induction a as [|c a IH]; intros [|d b] Ha Hb H.
  - done.
  - change ("/" +:+ x = String d (b +:+ "/" +:+ y)) in H.
    injection H as <- _. by simpl in Hb.
  - change (String c (a +:+ "/" +:+ x) = "/" +:+ y) in H.
    injection H as -> _. by simpl in Ha.
  - change (String c (a +:+ "/" +:+ x) = String d (b +:+ "/" +:+ y)) in H.
    injection H as -> H. simpl in Ha, Hb.
    apply andb_true_iff in Ha as [_ Ha]. apply andb_true_iff in Hb as [_ Hb].
    f_equal. by apply IH.
Qed.

(** The folders of two different ids without a slash share no file. *)
Lemma entry_paths_disjoint (id1 id2 name1 name2 : string) :
  id1 ≠ "" → no_slash id1 = true → id2 ≠ "" → no_slash id2 = true →
  startswith name1 "/" = false → startswith name2 "/" = false →
  id1 ≠ id2 →
  posix_join (posix_join NEWS_DIR id1) name1
  ≠ posix_join (posix_join NEWS_DIR id2) name2.
Proof.
  intros H1 Hs1 H2 Hs2 Hn1 Hn2 Hne H.
  destruct (no_slash_plain _ Hs1) as [? ?].
  destruct (no_slash_plain _ Hs2) as [? ?].
  rewrite !posix_join_plain in H by done.
  apply (inj (String.app "data/")) in H.
  by apply no_slash_split in H.
Qed.

Section Archive.

Variable html_parser : string → list node.
Variable set_iter : gset string → list string.
Hypothesis set_iter_perm : ∀ s : gset string, set_iter s ≡ₚ elements s.

(** An entry the loop can take: an id that is not empty and has no slash,
    and a thread page that comes. *)
Let ready (env : Env) (e : entry) : Prop :=
  ∃ id, fst e = Some id ∧ id ≠ "" ∧ no_slash id = true ∧
        fetch_result env (thread_url (Some id)) (Some headers) ≠ None.

Lemma process_archives (env : Env) news seen (fs : files) :
  (∀ path, disk_ok env path = true) →
  Forall (ready env) news →
  NoDup news.*1 →
  ∃ fs',
    process html_parser set_iter env news seen fs
    = (fs', Ok (seen ∪ ids news)) ∧
    (∀ path,
       (∀ id url name, (Some id, url) ∈ news → startswith name "/" = false →
          path ≠ posix_join (posix_join NEWS_DIR id) name) →
       fs' !! path = fs !! path) ∧
    (∀ id url html,
       (Some id, url) ∈ news →
       fetch_result env url None = Some html → html ≠ "" →
       fs' !! news_path id = Some html).
Proof using set_iter_perm.
  intros Hd. revert seen fs.
  induction news as [|[nid url] news IH]; intros seen fs Hready Hnodup.
  - exists fs. split; [|split].
    + simpl. unfold mret, io_ret. do 2 f_equal. unfold ids. set_solver.
    + done.
    + intros id url html Hin. by apply elem_of_nil in Hin.
  - apply Forall_cons in Hready as [(id & Hid & Hne & Hslash & Hth) Hready].
    simpl in Hid. subst nid.
    cbn [fmap list_fmap fst] in Hnodup.
    apply NoDup_cons in Hnodup as [Hfresh Hnodup].
    destruct (fetch_result env (thread_url (Some id)) (Some headers))
      as [page|] eqn:Hp; [|done].
    rewrite process_cons, (get_comments_links_page _ _ _ _ _ Hp).
    set (links := list_to_set (List.filter absolute (hrefs (html_parser page)))).
    destruct (download_returns set_iter set_iter_perm env id url links fs Hd)
      as [fs1 Hrun].
    rewrite Hrun.
    destruct (IH (seen ∪ {[Some id]}) fs1 Hready Hnodup)
      as (fs' & Hproc & Hframe & Harch).
    exists fs'. split; [|split].
    + rewrite Hproc. do 2 f_equal. unfold ids. set_solver.
    + intros path Hpath. rewrite Hframe.
      * pose proof (download_frame set_iter set_iter_perm env id url links fs path)
          as Hf. rewrite Hrun in Hf. apply Hf.
        -- apply (Hpath id url "news.html"); [by left|done].
        -- intros i. apply (Hpath id url (comment_name i)); [by left|done].
      * intros id' url' name Hin. apply (Hpath id' url'). by right.
    + intros id0 url0 html Hin Hf Hhtml.
      apply elem_of_cons in Hin as [[= -> ->]|Hin]; [|by eapply Harch].
      rewrite Hframe.
      * destruct (download_primary_saved set_iter set_iter_perm env id url
                    links fs html Hf Hhtml (Hd _)) as (fs2 & r & Hrun2 & Hnews).
        rewrite Hrun in Hrun2. by injection Hrun2 as <- _.
      * intros id' url' name Hin Hname. unfold news_path.
        apply Forall_forall with (x := (Some id', url')) in Hready; [|done].
        destruct Hready as (id2 & [= <-] & Hne2 & Hslash2 & _).
        apply entry_paths_disjoint; try done.
        intros ->. apply Hfresh.
        apply list_elem_of_fmap. by exists (Some id', url').
Qed.

(** X17. What a cycle leaves on disk. Take a cycle in which the disk takes
    every write, the front page came and parsed, and the new entries have
    different ids, none empty and none with a slash, and thread pages that
    come. The cycle ends normally, every id of the front page is in the
    seen set, and for every new entry whose news page came,
    [data/<id>/news.html] holds that page at the end of the cycle: the
    downloads of the entries behind it have not touched it. *)
Theorem cycle_archives_new_entries
    (env : Env) seen (fs : files) page top_news :
  (∀ path, disk_ok env path = true) →
  fetch_result env BASE_URL None = Some page → page ≠ "" →
  parse_top_news html_parser (Some page) = Ok top_news →
  Forall (ready env) (new_news top_news seen) →
  NoDup (new_news top_news seen).*1 →
  ∃ fs',
    cycle html_parser set_iter env seen fs = (fs', Ok (seen ∪ ids top_news)) ∧
    ∀ id url html,
      (Some id, url) ∈ new_news top_news seen →
      fetch_result env url None = Some html → html ≠ "" →
      fs' !! ("data/" +:+ id +:+ "/news.html") = Some html.
Proof using set_iter_perm.
  intros Hd Hf Hne Hp Hready Hnodup.
  destruct (process_archives env (new_news top_news seen) seen fs
              Hd Hready Hnodup) as (fs' & Hproc & _ & Harch).
  exists fs'. split.
  - by rewrite cycle_run, Hf, (truthy_text _ Hne), Hp, Hproc, ids_new_news.
  - intros id url html Hin Hu Hhtml.
    apply Forall_forall with (x := (Some id, url)) in Hready; [|done].
    destruct Hready as (id2 & [= <-] & Hne2 & Hslash2 & _).
    destruct (no_slash_plain _ Hslash2) as [? ?].
    rewrite <- (Harch id url html Hin Hu Hhtml).
    unfold news_path. by rewrite posix_join_plain.
Qed.

End Archive.

(** X17 on the world in which everything is served. *)
Lemma cycle_archives_new_entries_witness :
  ∃ fs',
    cycle sample_parser elements env_fine ∅ ∅
    = (fs', Ok (∅ ∪ ids [(Some "1", u1); (Some "2", u2)])) ∧
    ∀ id url html,
      (Some id, url) ∈ new_news [(Some "1", u1); (Some "2", u2)] ∅ →
      fetch_result env_fine url None = Some html → html ≠ "" →
      fs' !! ("data/" +:+ id +:+ "/news.html") = Some html.
Proof.
  apply (cycle_archives_new_entries sample_parser elements elements_perm
           env_fine ∅ ∅ front2_html [(Some "1", u1); (Some "2", u2)]).
  - intros path. reflexivity.
  - vm_compute. reflexivity.
  - discriminate.
  - vm_compute. reflexivity.
  - replace (new_news [(Some "1", u1); (Some "2", u2)] ∅)
      with [(Some "1", u1); (Some "2", u2)] by (vm_compute; reflexivity).
    apply Forall_cons; split.
    { exists "1". split; [reflexivity|]. split; [discriminate|].
      split; [reflexivity|]. vm_compute. discriminate. }
    apply Forall_cons; split.
    { exists "2". split; [reflexivity|]. split; [discriminate|].
      split; [reflexivity|]. vm_compute. discriminate. }
    apply Forall_nil_2.
  - replace (new_news [(Some "1", u1); (Some "2", u2)] ∅)
      with [(Some "1", u1); (Some "2", u2)] by (vm_compute; reflexivity).
    simpl. apply NoDup_cons. split; [|apply NoDup_singleton].
    intros H. apply list_elem_of_singleton in H. discriminate.
Defined.

(** ** One entry and the files of another *)

Section Neighbours.

Variable set_iter : gset string → list string.
Hypothesis set_iter_perm : ∀ s : gset string, set_iter s ≡ₚ elements s.

(** X7. [download_news_and_comments] for one entry touches no file of
    another: for two different ids, neither empty nor with a slash, the
    [news.html] and every [comment_<k>.html] of the other entry hold after
    the call what they held before, however the call ends. *)
Theorem download_leaves_other_entries
    (env : Env) id url links (fs : files) id' :
  id ≠ "" → no_slash id = true →
  id' ≠ "" → no_slash id' = true →
  id ≠ id' →
  (download_news_and_comments set_iter env (Some id) url links fs).1
    !! news_path id' = fs !! news_path id' ∧
  ∀ k,
    (download_news_and_comments set_iter env (Some id) url links fs).1
      !! comment_path id' k = fs !! comment_path id' k.
Proof using set_iter_perm.
  intros Hid Hslash Hid' Hslash' Hne.
  assert (∀ name name',
            startswith name "/" = false → startswith name' "/" = false →
            posix_join (posix_join NEWS_DIR id') name'
            ≠ posix_join (posix_join NEWS_DIR id) name) as Hother.
  { intros name name' Hn Hn'. by apply entry_paths_disjoint. }
  split; [|intros k]; apply (download_frame set_iter set_iter_perm).
  - by apply Hother.
  - intros i. by apply Hother.
  - by apply Hother.
  - intros i. by apply Hother.
Qed.

End Neighbours.

(** X7: the download of entry 1 and the files of entry 2. *)
Lemma download_leaves_other_entries_witness :
  (download_news_and_comments elements env_fine (Some "1") u1 {[l1; l2]}
     {[ "data/2/news.html" := "two" ]}).1 !! news_path "2"
  = ({[ "data/2/news.html" := "two" ]} : files) !! news_path "2" ∧
  ∀ k,
    (download_news_and_comments elements env_fine (Some "1") u1 {[l1; l2]}
       {[ "data/2/news.html" := "two" ]}).1 !! comment_path "2" k
    = ({[ "data/2/news.html" := "two" ]} : files) !! comment_path "2" k.
Proof.
  apply (download_leaves_other_entries elements elements_perm env_fine "1" u1
           {[l1; l2]} {[ "data/2/news.html" := "two" ]} "2").
  - discriminate.
  - reflexivity.
  - discriminate.
  - reflexivity.
  - discriminate.
Defined.

(** The order of the enumeration matters to a second download: with the
    two links of entry 1 taken the other way round, the second run puts
    under [comment_1.html] the page the first run had put under
    [comment_2.html]. *)
Example download_again_other_order :
  let first := (download_news_and_comments elements env_fine (Some "1") u1
                  {[l1; l2]} ∅).1 in
  let second := (download_news_and_comments (λ s, reverse (elements s))
                   env_fine (Some "1") u1 {[l1; l2]} first).1 in
  first !! "data/1/comment_1.html" = Some "first" ∧
  first !! "data/1/comment_2.html" = Some "second" ∧
  second !! "data/1/comment_1.html" = Some "second" ∧
  second !! "data/1/comment_2.html" = Some "first".
Proof. vm_compute. repeat split. Qed.
